(** * Product catalogue: search and detail endpoints

    A shallow embedding of the [products] application
    (models.py, services.py, views.py) together with the properties its
    specification states about filtering, ordering, validation, error
    mapping, serialisation of prices and the number of store accesses.

    Layout:
    - [Py]      : the Python built-ins the views call ([str.strip], [int],
                  [decimal.Decimal], [str], comparisons);
    - data model: [Category], [Product], the [Store] holding both tables;
    - [DB]      : a small monad threading the query counter and exceptions;
    - [QuerySet]: lazy query descriptions and their evaluation;
    - services and views, as in the source;
    - the properties. *)

From Stdlib Require Import Ascii String DecimalN DecimalString.
From stdpp Require Import base tactics option list sorting gmap strings.

Local Open Scope string_scope.
Local Open Scope Z_scope.
Local Open Scope list_scope.

(** ** Python built-ins

    Text is ASCII: a character outside that range is neither a space, a
    digit nor a letter here, whereas Python also reads the digits and
    spaces of other scripts.  The conversions are those of the library
    within its size limits (4300 digits for [int], exponents of at most
    eighteen digits for [Decimal]); [plain_text] below delimits the text
    on which the properties rely on them. *)

Module Py.

Definition chars (s : string) : list ascii := list_ascii_of_string s.
Definition text (l : list ascii) : string := string_of_list_ascii l.

Definition code (c : ascii) : N := N_of_ascii c.

Definition is_digit (c : ascii) : bool :=
  ((48 <=? code c) && (code c <=? 57))%N.

(** Characters removed by [str.strip()] (ASCII range). *)
Definition is_space (c : ascii) : bool :=
  (((9 <=? code c) && (code c <=? 13))
   || ((28 <=? code c) && (code c <=? 32)))%N.

Definition lower (c : ascii) : ascii :=
  if ((65 <=? code c) && (code c <=? 90))%N
  then ascii_of_N (code c + 32) else c.

Fixpoint lstrip (l : list ascii) : list ascii :=
  match l with
  | c :: l' => if is_space c then lstrip l' else l
  | [] => []
  end.

Definition strip (l : list ascii) : list ascii :=
  rev (lstrip (rev (lstrip l))).

(** Truth value of a string: only the empty string is falsy. *)
Definition truthy (s : string) : bool :=
  match s with EmptyString => false | _ => true end.

(** *** [int(s)] for a string argument *)

(** Characters [int()] skips around ASCII text: the C [isspace] set,
    which is smaller than the one of [str.strip()]. *)
Definition is_c_space (c : ascii) : bool :=
  (((9 <=? code c) && (code c <=? 13)) || (code c =? 32))%N.

Fixpoint lskip (l : list ascii) : list ascii :=
  match l with
  | c :: l' => if is_c_space c then lskip l' else l
  | [] => []
  end.

Definition skip_spaces (l : list ascii) : list ascii :=
  rev (lskip (rev (lskip l))).

Definition digit_val (c : ascii) : N := (code c - 48)%N.

(** Digits, single underscores allowed between two digits. *)
Fixpoint int_digits (l : list ascii) (after_digit : bool) (acc : N)
  : option N :=
  match l with
  | [] => if after_digit then Some acc else None
  | c :: l' =>
      if is_digit c then int_digits l' true (10 * acc + digit_val c)%N
      else if Ascii.eqb c "_" then
        if after_digit then int_digits l' false acc else None
      else None
  end.

Definition int (s : string) : option Z :=
  match skip_spaces (chars s) with
  | "-"%char :: l => (fun n => - Z.of_N n) <$> int_digits l false 0%N
  | "+"%char :: l => Z.of_N <$> int_digits l false 0%N
  | l => Z.of_N <$> int_digits l false 0%N
  end.

(** [str.isdigit()] on ASCII text (outside it [str.isdigit()] also
    accepts characters, such as a superscript two, that [int()]
    refuses). *)
Definition isdigit (s : string) : bool :=
  truthy s && forallb is_digit (chars s).

(** *** [decimal.Decimal] *)

(** [sign] is [true] for a negative number.  A finite value is
    [(-1)^sign * coeff * 10^exp]; a NaN carries a diagnostic payload
    ([0] when the payload is empty). *)
Inductive Decimal : Type :=
| Finite (sign : bool) (coeff : N) (exp : Z)
| Infinity (sign : bool)
| NaN (sign : bool) (signaling : bool) (diag : N).

Global Instance Decimal_eq_dec : EqDecision Decimal.
Proof. solve_decision. Defined.

Fixpoint uint_of_chars (l : list ascii) : option Decimal.uint :=
  match l with
  | [] => Some Decimal.Nil
  | c :: l' =>
      d ← uint_of_chars l';
      match code c with
      | 48%N => Some (Decimal.D0 d) | 49%N => Some (Decimal.D1 d)
      | 50%N => Some (Decimal.D2 d) | 51%N => Some (Decimal.D3 d)
      | 52%N => Some (Decimal.D4 d) | 53%N => Some (Decimal.D5 d)
      | 54%N => Some (Decimal.D6 d) | 55%N => Some (Decimal.D7 d)
      | 56%N => Some (Decimal.D8 d) | 57%N => Some (Decimal.D9 d)
      | _ => None
      end
  end.

Fixpoint chars_of_uint (d : Decimal.uint) : list ascii :=
  match d with
  | Decimal.Nil => []
  | Decimal.D0 d => "0"%char :: chars_of_uint d
  | Decimal.D1 d => "1"%char :: chars_of_uint d
  | Decimal.D2 d => "2"%char :: chars_of_uint d
  | Decimal.D3 d => "3"%char :: chars_of_uint d
  | Decimal.D4 d => "4"%char :: chars_of_uint d
  | Decimal.D5 d => "5"%char :: chars_of_uint d
  | Decimal.D6 d => "6"%char :: chars_of_uint d
  | Decimal.D7 d => "7"%char :: chars_of_uint d
  | Decimal.D8 d => "8"%char :: chars_of_uint d
  | Decimal.D9 d => "9"%char :: chars_of_uint d
  end.

(** The value of a possibly empty run of digits. *)
Definition digits_N (l : list ascii) : option N :=
  N.of_uint <$> uint_of_chars l.

(** The digits of a coefficient, ["0"] for zero (the [_int] field). *)
Definition N_digits (n : N) : list ascii := chars_of_uint (N.to_uint n).

(** Splits at the first occurrence of a character accepted by [f]. *)
Fixpoint split_at (f : ascii -> bool) (l : list ascii)
  : list ascii * option (list ascii) :=
  match l with
  | [] => ([], None)
  | c :: l' =>
      if f c then ([], Some l')
      else let '(a, b) := split_at f l' in (c :: a, b)
  end.

Definition take_sign (l : list ascii) : bool * list ascii :=
  match l with
  | "-"%char :: l' => (true, l')
  | "+"%char :: l' => (false, l')
  | _ => (false, l)
  end.

(** A signed, non-empty run of digits: the exponent after [E]. *)
Definition signed_digits (l : list ascii) : option Z :=
  let '(neg, ds) := take_sign l in
  match ds with
  | [] => None
  | _ => (fun n => if neg then - Z.of_N n else Z.of_N n) <$> digits_N ds
  end.

(** [int [. frac] [E exp]] with at least one digit in [int ++ frac]. *)
Definition parse_number (sign : bool) (l : list ascii) : option Decimal :=
  let '(mant, ex) := split_at (fun c => Ascii.eqb c "e") l in
  let '(ip, fp) := split_at (fun c => Ascii.eqb c ".") mant in
  let fp := default [] fp in
  match ip ++ fp with
  | [] => None
  | ds =>
      c ← digits_N ds;
      e ← match ex with Some x => signed_digits x | None => Some 0 end;
      Some (Finite sign c (e - Z.of_nat (length fp)))
  end.

Definition parse_special (sign : bool) (l : list ascii) : option Decimal :=
  if decide (l = chars "inf") then Some (Infinity sign)
  else if decide (l = chars "infinity") then Some (Infinity sign)
  else
    match l with
    | "n"%char :: "a"%char :: "n"%char :: d =>
        NaN sign false <$> digits_N d
    | "s"%char :: "n"%char :: "a"%char :: "n"%char :: d =>
        NaN sign true <$> digits_N d
    | _ => None
    end.

(** [Decimal(s)] for a string argument: surrounding whitespace and
    underscores are dropped, letters are case-insensitive.  [None]
    stands for [decimal.InvalidOperation].  The library also refuses a
    number whose exponent leaves its range (about [10^18] in size), which
    no text of [plain_text] can spell. *)
Definition Decimal_of_str (s : string) : option Decimal :=
  let l := lower <$> filter (fun c => c <> "_"%char) (strip (chars s)) in
  let '(sign, body) := take_sign l in
  match parse_number sign body with
  | Some d => Some d
  | None => parse_special sign body
  end.

(** *** [str(d)]: [Decimal.__str__] with the default context *)

Definition sign_text (s : bool) : list ascii := if s then chars "-" else [].

(** ["%+d" % z] *)
Definition signed_text (z : Z) : list ascii :=
  (if z <? 0 then "-"%char else "+"%char) :: N_digits (Z.abs_N z).

Definition zeros (n : Z) : list ascii := replicate (Z.to_nat n) "0"%char.

Definition Decimal_chars (d : Decimal) : list ascii :=
  match d with
  | Infinity s => sign_text s ++ chars "Infinity"
  | NaN s sig n =>
      sign_text s ++ chars (if sig then "sNaN" else "NaN")
        ++ (if (n =? 0)%N then [] else N_digits n)
  | Finite s c e =>
      let _int := N_digits c in
      let len := Z.of_nat (length _int) in
      let leftdigits := e + len in
      let dotplace :=
        if (e <=? 0) && (-6 <? leftdigits) then leftdigits else 1 in
      let '(intpart, fracpart) :=
        if dotplace <=? 0 then
          (chars "0", "."%char :: zeros (- dotplace) ++ _int)
        else if len <=? dotplace then
          (_int ++ zeros (dotplace - len), [])
        else
          (take (Z.to_nat dotplace) _int,
           "."%char :: drop (Z.to_nat dotplace) _int) in
      let exp :=
        if leftdigits =? dotplace then []
        else "E"%char :: signed_text (leftdigits - dotplace) in
      sign_text s ++ intpart ++ fracpart ++ exp
  end.

Definition Decimal_str (d : Decimal) : string := text (Decimal_chars d).

(** *** Comparisons: [Decimal._cmp] and the rich comparisons *)

Definition is_nan (d : Decimal) : bool :=
  match d with NaN _ _ _ => true | _ => false end.

Definition isinfinity (d : Decimal) : Z :=
  match d with
  | Infinity true => -1
  | Infinity false => 1
  | _ => 0
  end.

Definition signed (s : bool) (c : N) : Z :=
  if s then - Z.of_N c else Z.of_N c.

(** Both coefficients are padded to the smaller exponent, then compared
    with their signs. *)
Definition cmp (a b : Decimal) : comparison :=
  match a, b with
  | Finite s1 c1 e1, Finite s2 c2 e2 =>
      let e := Z.min e1 e2 in
      (signed s1 c1 * 10 ^ (e1 - e)) ?= (signed s2 c2 * 10 ^ (e2 - e))
  | _, _ => isinfinity a ?= isinfinity b
  end.

(** [a < b] and [a > b]; [None] stands for [decimal.InvalidOperation],
    which an ordering comparison raises when an operand is a NaN. *)
Definition lt (a b : Decimal) : option bool :=
  if is_nan a || is_nan b then None
  else Some (match cmp a b with Lt => true | _ => false end).

Definition gt (a b : Decimal) : option bool :=
  if is_nan a || is_nan b then None
  else Some (match cmp a b with Gt => true | _ => false end).

(** The numeric order the store applies to a price column: [a <= b],
    never satisfied by a NaN. *)
Definition le (a b : Decimal) : bool :=
  negb (is_nan a || is_nan b)
  && match cmp a b with Gt => false | _ => true end.

Definition zero : Decimal := Finite false 0 0.

(** A fixed-point amount of [cents] hundredths, the shape of a value
    read back from a [DecimalField(decimal_places=2)] column. *)
Definition of_cents (cents : Z) : Decimal :=
  Finite (cents <? 0) (Z.abs_N cents) (-2).

End Py.

Import Py.

(** ** Exceptions

    Each constructor is an exception class the views name in an [except]
    clause or that the code they call raises; the argument is [str(e)]. *)

Inductive exn : Type :=
| ValueError (msg : string)
| InvalidOperation (msg : string)
| ObjectDoesNotExist (msg : string)
| MultipleObjectsReturned (msg : string)
| DatabaseError (msg : string).

Definition exn_str (e : exn) : string :=
  match e with
  | ValueError m | InvalidOperation m | ObjectDoesNotExist m
  | MultipleObjectsReturned m | DatabaseError m => m
  end.

(** ** Data model (models.py) *)

(** [DateTimeField] values are points in time: microseconds since the
    epoch. *)
Definition datetime : Type := Z.

Module Category.
Record t : Type := Build {
  id : Z;
  name : string;
  description : string;
  is_active : bool;
  created_at : datetime;
}.
End Category.

Module Product.
(** A row of the product table; [category_id] is the column behind the
    [category] foreign key. *)
Record t : Type := Build {
  id : Z;
  sku : string;
  name : string;
  price : Decimal;
  is_active : bool;
  category_id : Z;
  created_at : datetime;
  description : string;
}.
End Product.

(** The catalogue store: both tables, rows in the order a scan of the
    table yields them. *)
Record Store : Type := {
  categories : list Category.t;
  products : list Product.t;
}.

(** A [Product] instance in memory: its row and the related [Category]
    when it has already been loaded ([select_related], or an earlier
    access to [product.category]). *)
Record ProductObj : Type := {
  row : Product.t;
  category_cache : option Category.t;
}.

Global Instance Category_eq_dec : EqDecision Category.t.
Proof. solve_decision. Defined.

Global Instance Product_eq_dec : EqDecision Product.t.
Proof. solve_decision. Defined.

Global Instance ProductObj_eq_dec : EqDecision ProductObj.
Proof. solve_decision. Defined.

(** ** The store monad

    A computation reads the store, counts the queries it sends and either
    returns a value or raises an exception. *)

Definition DB (A : Type) : Type := Store -> nat -> (exn + A) * nat.

Global Instance DB_ret : MRet DB := fun A x _ n => (inr x, n).

Global Instance DB_bind : MBind DB := fun A B f m s n =>
  match m s n with
  | (inr x, n') => f x s n'
  | (inl e, n') => (inl e, n')
  end.

Definition raise {A : Type} (e : exn) : DB A := fun _ n => (inl e, n).

(** [try: m except e: h e] *)
Definition try_except {A : Type} (m : DB A) (h : exn -> DB A) : DB A :=
  fun s n =>
    match m s n with
    | (inl e, n') => h e s n'
    | r => r
    end.

(** One round trip to the store, answered by [f].  The store always
    answers here: failures of the store or of the driver are not
    modelled. *)
Definition query {A : Type} (f : Store -> A) : DB A :=
  fun s n => (inr (f s), S n).

(** Lifts a library call that may raise. *)
Definition lift {A : Type} (e : exn) (o : option A) : DB A :=
  match o with Some x => mret x | None => raise e end.

Fixpoint for_each {A B : Type} (f : A -> DB B) (l : list A) : DB (list B) :=
  match l with
  | [] => mret []
  | x :: l' => y ← f x; ys ← for_each f l'; mret (y :: ys)
  end.

(** ** Query sets *)

Inductive Lookup : Type :=
| is_active__exact (b : bool)
| category_id__exact (c : Z)
| price__range (lo hi : Decimal)
| id__exact (i : Z).

(** Terms of an [ORDER BY]; the application only ever orders by
    ['-created_at']. *)
Inductive OrderTerm : Type :=
| created_at__desc.

(** A lazy query: nothing is sent to the store until it is iterated. *)
Record QuerySet : Type := {
  lookups : list Lookup;
  select_related_category : bool;
  ordering : list OrderTerm;
}.

(** Whether a row satisfies a lookup.  The comparisons are exact; the
    store agrees with them for the values it can take ([storable] below:
    integers of 64 bits, bounds that fit the price column).  For other
    values the real lookup rounds the bound or raises, which is not
    modelled. *)
Definition matches (p : Product.t) (l : Lookup) : bool :=
  match l with
  | is_active__exact b => Bool.eqb (Product.is_active p) b
  | category_id__exact c => Product.category_id p =? c
  | price__range lo hi => le lo (Product.price p) && le (Product.price p) hi
  | id__exact i => Product.id p =? i
  end.

Definition find_category (s : Store) (cid : Z) : option Category.t :=
  List.find (fun c => Category.id c =? cid) (categories s).

(** Stable insertion by decreasing key: [x] goes before the first element
    whose key is not larger. *)
Fixpoint insert_desc {A : Type} (key : A -> Z) (x : A) (l : list A)
  : list A :=
  match l with
  | [] => [x]
  | y :: l' => if key y <=? key x then x :: l else y :: insert_desc key x l'
  end.

Definition sort_desc {A : Type} (key : A -> Z) (l : list A) : list A :=
  foldr (insert_desc key) [] l.

Definition order_by_term (t : OrderTerm) (l : list ProductObj)
  : list ProductObj :=
  match t with
  | created_at__desc => sort_desc (fun o => Product.created_at (row o)) l
  end.

(** A row together with its category, as the join returns it; no row
    comes back when the category is missing. *)
Definition loaded (s : Store) (p : Product.t) : option ProductObj :=
  (fun c => {| row := p; category_cache := Some c |})
    <$> find_category s (Product.category_id p).

(** The rows a query selects: the products satisfying every lookup,
    joined with their category when [select_related('category')] was
    asked for (an inner join, the foreign key is not nullable), ordered by
    the [ORDER BY] terms; rows with equal keys stay in scan order here,
    one of the orders a store may return them in. *)
Definition select (s : Store) (qs : QuerySet) : list ProductObj :=
  let hits :=
    List.filter (fun p => forallb (matches p) (lookups qs)) (products s) in
  let objects :=
    if select_related_category qs then omap (loaded s) hits
    else (fun p => {| row := p; category_cache := None |}) <$> hits in
  foldr order_by_term objects (ordering qs).

(** Iterating a query set sends one query. *)
Definition iterate (qs : QuerySet) : DB (list ProductObj) :=
  query (fun s => select s qs).

Definition plus_lookup (l : Lookup) (qs : QuerySet) : QuerySet :=
  {| lookups := lookups qs ++ [l];
     select_related_category := select_related_category qs;
     ordering := ordering qs |}.

Definition select_related (qs : QuerySet) : QuerySet :=
  {| lookups := lookups qs;
     select_related_category := true;
     ordering := ordering qs |}.

Definition order_by (ts : list OrderTerm) (qs : QuerySet) : QuerySet :=
  {| lookups := lookups qs;
     select_related_category := select_related_category qs;
     ordering := ts |}.

(** [QuerySet.get(id=i)]: one query; exactly one row must come back.
    (For an [i] outside the 64-bit range the framework answers that no row
    exists without asking the store; the count of queries is modelled for
    ids within the range.) *)
Definition get (i : Z) (qs : QuerySet) : DB ProductObj :=
  rows ← iterate (order_by [] (plus_lookup (id__exact i) qs));
  match rows with
  | [o] => mret o
  | [] => raise (ObjectDoesNotExist "Product matching query does not exist.")
  | _ =>
      let num := N.of_nat (length rows) in
      raise (MultipleObjectsReturned
               ("get() returned more than one Product -- it returned "
                ++ (if (num <? 21)%N then text (N_digits num)
                    else "more than 20") ++ "!"))
  end.

(** [product.category]: served from the instance when the category is
    already loaded, otherwise fetched with one more query and kept. *)
Definition category (o : ProductObj) : DB (ProductObj * Category.t) :=
  match category_cache o with
  | Some c => mret (o, c)
  | None =>
      found ← query (fun s => find_category s (Product.category_id (row o)));
      match found with
      | Some c => mret ({| row := row o; category_cache := Some c |}, c)
      | None => raise (ObjectDoesNotExist "Product has no category.")
      end
  end.

(** ** models.py: [ProductQuerySet], [ProductManager] *)

(** Truth value of an optional integer: [None] and [0] are falsy. *)
Definition truthy_int (o : option Z) : bool :=
  match o with
  | Some z => negb (z =? 0)
  | None => false
  end.

Module ProductQuerySet.

Definition active_products (self : QuerySet) : QuerySet :=
  plus_lookup (is_active__exact true) self.

Definition by_category (self : QuerySet) (category_id : Z) : QuerySet :=
  plus_lookup (category_id__exact category_id) self.

Definition by_price_range (self : QuerySet) (min_price max_price : Decimal)
  : QuerySet :=
  plus_lookup (price__range min_price max_price) self.

Definition search_products (self : QuerySet) (category_id : option Z)
    (min_price max_price : option Decimal) : QuerySet :=
  let queryset := active_products self in
  let queryset :=
    match category_id with
    | Some c => if truthy_int category_id then by_category queryset c
                else queryset
    | None => queryset
    end in
  let queryset :=
    match min_price, max_price with
    | Some lo, Some hi => by_price_range queryset lo hi
    | _, _ => queryset
    end in
  order_by [created_at__desc] (select_related queryset).

End ProductQuerySet.

Module ProductManager.

(** [Product.Meta.ordering] *)
Definition Meta_ordering : list OrderTerm := [created_at__desc].

Definition get_queryset : QuerySet :=
  {| lookups := []; select_related_category := false;
     ordering := Meta_ordering |}.

Definition active_products : QuerySet :=
  ProductQuerySet.active_products get_queryset.

Definition search_products (category_id : option Z)
    (min_price max_price : option Decimal) : QuerySet :=
  ProductQuerySet.search_products get_queryset
    category_id min_price max_price.

End ProductManager.

(** ** services.py *)

(** The [filters] dictionary the view builds: always these three keys. *)
Record Filters : Type := {
  category_id : option Z;
  min_price : option Decimal;
  max_price : option Decimal;
}.

Module ProductSearchService.

Definition search_products (filters : Filters) : QuerySet :=
  ProductManager.search_products
    (category_id filters) (min_price filters) (max_price filters).

Definition get_product_detail (product_id : Z) : DB ProductObj :=
  get product_id (select_related ProductManager.get_queryset).

End ProductSearchService.

(** ** views.py *)

#[local] Set Warnings "-register-all".
Inductive json : Type :=
| JNull
| JBool (b : bool)
| JInt (z : Z)
| JStr (s : string)
| JList (l : list json)
| JDict (l : list (string * json)).

Record JsonResponse : Type := {
  body : json;
  status : Z;
}.

(** [request.GET]: the query parameters. *)
Record HttpRequest : Type := {
  GET : gmap string string;
}.

(** The [product_id] argument of the detail view: the route converts it to
    an integer, the view also accepts a string. *)
Inductive PathArg : Type :=
| arg_int (z : Z)
| arg_str (s : string).

Definition truthy_str (o : option string) : bool :=
  match o with
  | Some s => truthy s
  | None => false
  end.

Definition opt_json {A : Type} (f : A -> json) (o : option A) : json :=
  match o with
  | Some x => f x
  | None => JNull
  end.

(** The [filters] dictionary in a response; the encoder writes a
    [Decimal] as [str(d)]. *)
Definition filters_json (f : Filters) : json :=
  JDict [("category_id", opt_json JInt (category_id f));
         ("min_price", opt_json (fun d => JStr (Decimal_str d)) (min_price f));
         ("max_price", opt_json (fun d => JStr (Decimal_str d)) (max_price f))].

Definition failure (msg : string) (code : Z) : JsonResponse :=
  {| body := JDict [("success", JBool false); ("error", JStr msg)];
     status := code |}.

Section Views.

(** [datetime.isoformat] *)
Variable isoformat : datetime -> string.

Definition ProductSearchView__get_category_id (request : HttpRequest)
  : DB (option Z) :=
  let category_id := GET request !! "category_id" in
  match category_id with
  | Some text_ =>
      if truthy_str category_id then
        try_except
          (z ← lift (ValueError "invalid literal for int() with base 10")
                 (int text_);
           mret (Some z))
          (fun e =>
             match e with
             | ValueError _ =>
                 raise (ValueError "category_id must be a valid number")
             | _ => raise e
             end)
      else mret None
  | None => mret None
  end.

Definition ProductSearchView__get_price_range (request : HttpRequest)
  : DB (option Decimal * option Decimal) :=
  let min_price_str := GET request !! "min_price" in
  let max_price_str := GET request !! "max_price" in
  min_price ←
    match min_price_str with
    | Some text_ =>
        if truthy_str min_price_str then
          try_except
            (min_price ← lift (InvalidOperation "ConversionSyntax")
                           (Decimal_of_str text_);
             negative ← lift (InvalidOperation "InvalidOperation")
                          (lt min_price zero);
             if negative : bool
             then raise (ValueError "Price cannot be negative")
             else mret (Some min_price))
            (fun e =>
               match e with
               | ValueError _ | InvalidOperation _ =>
                   raise (ValueError
                            "min_price must be a valid dollar amount")
               | _ => raise e
               end)
        else mret None
    | None => mret None
    end;
  max_price ←
    match max_price_str with
    | Some text_ =>
        if truthy_str max_price_str then
          try_except
            (max_price ← lift (InvalidOperation "ConversionSyntax")
                           (Decimal_of_str text_);
             negative ← lift (InvalidOperation "InvalidOperation")
                          (lt max_price zero);
             if negative : bool
             then raise (ValueError "Price cannot be negative")
             else mret (Some max_price))
            (fun e =>
               match e with
               | ValueError _ | InvalidOperation _ =>
                   raise (ValueError
                            "max_price must be a valid dollar amount")
               | _ => raise e
               end)
        else mret None
    | None => mret None
    end;
  mret (min_price, max_price).

(** One element of [products_data] in the search view. *)
Definition search_product_data (product : ProductObj) : DB json :=
  '(product, c_id) ← category product;
  '(product, c_name) ← category product;
  mret (JDict
    [("id", JInt (Product.id (row product)));
     ("sku", JStr (Product.sku (row product)));
     ("name", JStr (Product.name (row product)));
     ("price", JStr (Decimal_str (Product.price (row product))));
     ("is_active", JBool (Product.is_active (row product)));
     ("category", JDict [("id", JInt (Category.id c_id));
                         ("name", JStr (Category.name c_name))]);
     ("created_at", JStr (isoformat (Product.created_at (row product))));
     ("description", JStr (Product.description (row product)))]).

Definition ProductSearchView_get (request : HttpRequest)
  : DB JsonResponse :=
  try_except
    (category_id ← ProductSearchView__get_category_id request;
     '(min_price, max_price) ← ProductSearchView__get_price_range request;
     inverted ←
       match min_price, max_price with
       | Some lo, Some hi =>
           lift (InvalidOperation "InvalidOperation") (gt lo hi)
       | _, _ => mret false
       end;
     if inverted : bool then
       mret (failure "Minimum price cannot be greater than maximum price"
               400)
     else
       let filters :=
         {| category_id := category_id;
            min_price := min_price;
            max_price := max_price |} in
       let products_queryset :=
         ProductSearchService.search_products filters in
       products ← iterate products_queryset;
       products_data ← for_each search_product_data products;
       mret {| body := JDict
                 [("success", JBool true);
                  ("products", JList products_data);
                  ("count", JInt (Z.of_nat (length products_data)));
                  ("filters_applied", filters_json filters)];
               status := 200 |})
    (fun e =>
       match e with
       | ValueError msg => mret (failure ("Invalid parameter: " ++ msg) 400)
       | DatabaseError _ => mret (failure "Database error occurred" 500)
       | _ =>
           mret (failure ("Unexpected server error: " ++ exn_str e) 500)
       end).

Definition detail_product_data (product : ProductObj) : DB json :=
  '(product, c_id) ← category product;
  '(product, c_name) ← category product;
  mret (JDict
    [("id", JInt (Product.id (row product)));
     ("sku", JStr (Product.sku (row product)));
     ("name", JStr (Product.name (row product)));
     ("price", JStr (Decimal_str (Product.price (row product))));
     ("is_active", JBool (Product.is_active (row product)));
     ("category", JDict [("id", JInt (Category.id c_id));
                         ("name", JStr (Category.name c_name))]);
     ("description", JStr (Product.description (row product)));
     ("created_at", JStr (isoformat (Product.created_at (row product))))]).

Definition ProductDetailView_get (request : HttpRequest)
    (product_id : PathArg) : DB JsonResponse :=
  try_except
    (match product_id with
     | arg_str s =>
         if negb (isdigit s) then
           mret (failure "Product ID must be a valid number" 400)
         else
           product_id ← lift
             (ValueError "invalid literal for int() with base 10") (int s);
           product ← ProductSearchService.get_product_detail product_id;
           product_data ← detail_product_data product;
           mret {| body := JDict [("success", JBool true);
                                  ("product", product_data)];
                   status := 200 |}
     | arg_int product_id =>
         product ← ProductSearchService.get_product_detail product_id;
         product_data ← detail_product_data product;
         mret {| body := JDict [("success", JBool true);
                                ("product", product_data)];
                 status := 200 |}
     end)
    (fun e =>
       match e with
       | ObjectDoesNotExist _ => mret (failure "Product not found" 404)
       | DatabaseError _ => mret (failure "Database error occurred" 500)
       | _ => mret (failure ("Unexpected error: " ++ exn_str e) 500)
       end).

End Views.

(** ** Vocabulary of the properties *)

(** The store enforces primary keys and the foreign key from product to
    category; [store_ok] is the executable form of these constraints. *)
Definition store_ok (s : Store) : bool :=
  bool_decide (NoDup (Product.id <$> products s))
  && bool_decide (NoDup (Category.id <$> categories s))
  && forallb
       (fun p => bool_decide
                   (is_Some (find_category s (Product.category_id p))))
       (products s).

(** The result sequence of [search(categoryId?, minPrice?, maxPrice?)]. *)
Definition search_results (s : Store) (c : option Z)
    (lo hi : option Decimal) : list ProductObj :=
  select s (ProductSearchService.search_products
              {| category_id := c; min_price := lo; max_price := hi |}).

(** The conjunction of lookups [search_products] applies to a row. *)
Definition search_hit (c : option Z) (lo hi : option Decimal)
    (p : Product.t) : bool :=
  forallb (matches p)
    (lookups (ProductManager.search_products c lo hi)).

Definition category_ok (c : option Z) (p : Product.t) : bool :=
  match c with
  | Some cid => if cid =? 0 then true else Product.category_id p =? cid
  | None => true
  end.

Definition price_ok (lo hi : option Decimal) (p : Product.t) : bool :=
  match lo, hi with
  | Some a, Some b => le a (Product.price p) && le (Product.price p) b
  | _, _ => true
  end.

Definition newer_or_equal {A : Type} (key : A -> Z) (a b : A) : Prop :=
  key b <= key a.

Definition created (o : ProductObj) : datetime := Product.created_at (row o).

(** The filter condition as the search contract words it: active, in the
    category when one was supplied, within the bounds when both were
    supplied. *)
Definition supplied_filters_hold (c : option Z) (lo hi : option Decimal)
    (p : Product.t) : Prop :=
  Product.is_active p = true
  /\ (forall cid, c = Some cid -> Product.category_id p = cid)
  /\ (forall a b, lo = Some a -> hi = Some b ->
        le a (Product.price p) = true /\ le (Product.price p) b = true).

(** The same condition with a zero category id counted as not supplied. *)
Definition applied_filters_hold (c : option Z) (lo hi : option Decimal)
    (p : Product.t) : Prop :=
  Product.is_active p = true
  /\ (forall cid, c = Some cid -> cid <> 0 -> Product.category_id p = cid)
  /\ (forall a b, lo = Some a -> hi = Some b ->
        le a (Product.price p) = true /\ le (Product.price p) b = true).

(** The order the search contract words: newest first, ties by larger id
    first. *)
Definition before_by_created_then_id (a b : ProductObj) : Prop :=
  created b < created a
  \/ (created a = created b /\ Product.id (row b) < Product.id (row a)).

(** The rows the keyed lookup of the detail endpoint finds. *)
Definition detail_rows (s : Store) (z : Z) : list ProductObj :=
  select s (order_by [] (plus_lookup (id__exact z)
                           (select_related ProductManager.get_queryset))).

(** The characters of a number printed without exponent. *)
Definition is_plain (c : ascii) : bool :=
  is_digit c || Ascii.eqb c "." || Ascii.eqb c "-".

(** The lookup [id=z] of the detail query. *)
Definition has_id (z : Z) (p : Product.t) : bool :=
  forallb (matches p) [id__exact z].

(** *** Validation, as the handler contract words it

    A parameter counts as supplied when it is present and not empty.  The
    outcome of parsing one is [None] when it is rejected, [Some None] when
    it was not supplied and [Some (Some v)] when it parsed to [v]. *)

Definition param (key : string) (request : HttpRequest) : option string :=
  match GET request !! key with
  | Some t => if truthy t then Some t else None
  | None => None
  end.

(** [category_id] must parse as an integer. *)
Definition parsed_category_id (request : HttpRequest) : option (option Z) :=
  match param "category_id" request with
  | Some t => z ← int t; Some (Some z)
  | None => Some None
  end.

(** A price must parse as a decimal that is not negative. *)
Definition parsed_price (key : string) (request : HttpRequest)
  : option (option Decimal) :=
  match param key request with
  | Some t =>
      d ← Decimal_of_str t;
      negative ← lt d zero;
      if negative : bool then None else Some (Some d)
  | None => Some None
  end.

(** Both bounds were supplied and the minimum is the larger one. *)
Definition inverted (lo hi : option Decimal) : bool :=
  match lo, hi with
  | Some a, Some b => match cmp a b with Gt => true | _ => false end
  | _, _ => false
  end.

Definition min_exceeds_max : string :=
  "Minimum price cannot be greater than maximum price".

(** The value of a key of a JSON object. *)
Definition jget (key : string) (j : json) : option json :=
  match j with
  | JDict l => snd <$> List.find (fun kv => String.eqb (fst kv) key) l
  | _ => None
  end.

(** The [price] field of [j] is the JSON string [str(price)] of [p]. *)
Definition price_field_of (p : Product.t) (j : json) : Prop :=
  jget "price" j = Some (JStr (Decimal_str (Product.price p))).

(** The integer a [product_id] argument stands for, when the detail view
    accepts it. *)
Definition path_id (a : PathArg) : option Z :=
  match a with
  | arg_int z => Some z
  | arg_str s => if isdigit s then int s else None
  end.

(** The serialised form of a product whose category is [c]. *)
Definition search_product_json (isoformat : datetime -> string)
    (p : Product.t) (c : Category.t) : json :=
  JDict
    [("id", JInt (Product.id p));
     ("sku", JStr (Product.sku p));
     ("name", JStr (Product.name p));
     ("price", JStr (Decimal_str (Product.price p)));
     ("is_active", JBool (Product.is_active p));
     ("category", JDict [("id", JInt (Category.id c));
                         ("name", JStr (Category.name c))]);
     ("created_at", JStr (isoformat (Product.created_at p)));
     ("description", JStr (Product.description p))].

Definition detail_product_json (isoformat : datetime -> string)
    (p : Product.t) (c : Category.t) : json :=
  JDict
    [("id", JInt (Product.id p));
     ("sku", JStr (Product.sku p));
     ("name", JStr (Product.name p));
     ("price", JStr (Decimal_str (Product.price p)));
     ("is_active", JBool (Product.is_active p));
     ("category", JDict [("id", JInt (Category.id c));
                         ("name", JStr (Category.name c))]);
     ("description", JStr (Product.description p));
     ("created_at", JStr (isoformat (Product.created_at p)))].

Definition cached_json (f : Product.t -> Category.t -> json)
    (o : ProductObj) : option json :=
  f (row o) <$> category_cache o.

(** *** The domain of the model

    The values on which the model of the library and of the store is
    exact. *)

(** An integer the store can take as a key: 64 bits, signed. *)
Definition int64 (z : Z) : bool :=
  (- 2 ^ 63 <=? z) && (z <? 2 ^ 63).

(** A decimal that fits the price column, [DecimalField(max_digits=10,
    decimal_places=2)]: finite, at most two decimal places, fewer than
    ten digits in all once written with two. *)
Definition column_value (d : Decimal) : bool :=
  match d with
  | Finite _ c e => (-2 <=? e) && (Z.of_N c * 10 ^ (e + 2) <? 10 ^ 10)
  | _ => false
  end.

(** Filter values the store can take: the category id when it is used,
    the bounds when both are given (a single bound is never sent). *)
Definition storable (c : option Z) (lo hi : option Decimal) : bool :=
  match c with
  | Some z => int64 z
  | None => true
  end
  && match lo, hi with
     | Some a, Some b => column_value a && column_value b
     | _, _ => true
     end.

(** Every price of the store fits the price column. *)
Definition prices_fit (s : Store) : bool :=
  forallb (fun p => column_value (Product.price p)) (products s).

(** Text on which [int], [isdigit] and [Decimal_of_str] are the
    library's functions: ASCII, at most eighteen characters. *)
Definition plain_text (t : string) : bool :=
  (length (chars t) <=? 18)%nat
  && forallb (fun c => (code c <? 128)%N) (chars t).

Definition plain_param (key : string) (request : HttpRequest) : bool :=
  match param key request with
  | Some t => plain_text t
  | None => true
  end.

(** The three parameters of the search, when supplied, are plain text. *)
Definition plain_request (request : HttpRequest) : bool :=
  plain_param "category_id" request
  && plain_param "min_price" request
  && plain_param "max_price" request.

(** The filter values a request parses to, if it does, are storable. *)
Definition storable_request (request : HttpRequest) : bool :=
  match parsed_category_id request,
        parsed_price "min_price" request,
        parsed_price "max_price" request with
  | Some c, Some lo, Some hi => storable c lo hi
  | _, _, _ => true
  end.

(** The argument of the detail view is an integer of 64 bits or plain
    text. *)
Definition plain_arg (a : PathArg) : bool :=
  match a with
  | arg_int z => int64 z
  | arg_str t => plain_text t
  end.

(** The parameter [key] parses as a decimal and is negative. *)
Definition negative_param (key : string) (request : HttpRequest) : Prop :=
  exists t d,
    param key request = Some t
    /\ Decimal_of_str t = Some d
    /\ lt d zero = Some true.

(** The search endpoint as the handler contract describes it: the
    response, and the number of queries sent to the store. *)
Definition search_outcome (isoformat : datetime -> string)
    (request : HttpRequest) (s : Store) : JsonResponse * nat :=
  match parsed_category_id request with
  | None =>
      (failure "Invalid parameter: category_id must be a valid number" 400,
       0%nat)
  | Some c =>
      match parsed_price "min_price" request with
      | None =>
          (failure
             "Invalid parameter: min_price must be a valid dollar amount"
             400, 0%nat)
      | Some lo =>
          match parsed_price "max_price" request with
          | None =>
              (failure
                 "Invalid parameter: max_price must be a valid dollar amount"
                 400, 0%nat)
          | Some hi =>
              if inverted lo hi then (failure min_exceeds_max 400, 0%nat)
              else
                let products_data :=
                  omap (cached_json (search_product_json isoformat))
                    (search_results s c lo hi) in
                ({| body := JDict
                      [("success", JBool true);
                       ("products", JList products_data);
                       ("count", JInt (Z.of_nat (length products_data)));
                       ("filters_applied",
                        filters_json {| category_id := c; min_price := lo;
                                        max_price := hi |})];
                    status := 200 |}, 1%nat)
          end
      end
  end.

(** ** Sample data: the catalogue of the test suite *)

Module Scenario.

Definition electronics : Category.t :=
  Category.Build 1 "Electronics" "Phones, laptops, gadgets" true 1000.

Definition clothing : Category.t :=
  Category.Build 2 "Clothing" "Shirts, pants, accessories" true 1001.

Definition phone : Product.t :=
  Product.Build 1 "PHONE001" "Smartphone" (of_cents 59999) true 1 2001 "".

Definition laptop : Product.t :=
  Product.Build 2 "LAPTOP001" "Gaming Laptop" (of_cents 129999) true 1
    2002 "".

Definition shirt : Product.t :=
  Product.Build 3 "SHIRT001" "Cotton T-Shirt" (of_cents 2499) true 2 2003 "".

Definition old_tablet : Product.t :=
  Product.Build 4 "TABLET001" "Old Tablet" (of_cents 19999) false 1 2004 "".

Definition store : Store :=
  {| categories := [electronics; clothing];
     products := [phone; laptop; shirt; old_tablet] |}.

(** Two products created at the same instant. *)
Definition twin_a : Product.t :=
  Product.Build 1 "TWIN-A" "First twin" (of_cents 1000) true 1 5000 "".

Definition twin_b : Product.t :=
  Product.Build 2 "TWIN-B" "Second twin" (of_cents 2000) true 1 5000 "".

Definition twins : Store :=
  {| categories := [electronics]; products := [twin_a; twin_b] |}.

Definition request (params : list (string * string)) : HttpRequest :=
  {| GET := list_to_map params |}.

(** A stand-in for [datetime.isoformat] in the examples: the instant
    written as its count of microseconds. *)
Definition isoformat (t : datetime) : string :=
  text (signed_text t).

End Scenario.

(** ** models.py: the declared indexes *)

Module Index.
Record t : Type := Build {
  fields : list string;
  name : string;
}.
End Index.

(** [Category.Meta.indexes] *)
Definition Category_Meta_indexes : list Index.t :=
  [Index.Build ["is_active"; "name"] "idx_category_active_name"].

(** [Product.Meta.indexes] *)
Definition Product_Meta_indexes : list Index.t :=
  [Index.Build ["is_active"; "category"; "-created_at"]
     "idx_product_category_sort";
   Index.Build ["is_active"; "category"; "price"; "-created_at"]
     "idx_product_full_search";
   Index.Build ["is_active"; "price"] "idx_product_price_range";
   Index.Build ["sku"] "idx_product_sku";
   Index.Build ["name"] "idx_product_name"].

(** The model field a lookup constrains. *)
Definition lookup_field (l : Lookup) : string :=
  match l with
  | is_active__exact _ => "is_active"
  | category_id__exact _ => "category"
  | price__range _ _ => "price"
  | id__exact _ => "id"
  end.

(** The field an [ORDER BY] term names, as [order_by] spells it. *)
Definition order_field (t : OrderTerm) : string :=
  match t with
  | created_at__desc => "-created_at"
  end.

(** The columns a query touches: those it filters on, in the order the
    lookups were added, then those it sorts by. *)
Definition query_fields (qs : QuerySet) : list string :=
  (lookup_field <$> lookups qs) ++ (order_field <$> ordering qs).

(** ** urls.py

    A route is a sequence of literal text and [<int:name>] converters; it
    must match the whole path.  The converter takes the longest run of
    digits [0-9], which is what the pattern [[0-9]+] matches when, as in
    both routes here, the text that follows does not start with a
    digit. *)

Inductive View : Type :=
| product_search
| product_detail.

Inductive Segment : Type :=
| literal (s : string)
| int_converter (name : string).

Definition urlpatterns : list (list Segment * View) :=
  [([literal "api/products/search/"], product_search);
   ([literal "api/products/"; int_converter "product_id"; literal "/"],
    product_detail)].

Fixpoint strip_prefix (p l : list ascii) : option (list ascii) :=
  match p, l with
  | [], _ => Some l
  | a :: p', b :: l' => if Ascii.eqb a b then strip_prefix p' l' else None
  | _ :: _, [] => None
  end.

Fixpoint span_digits (l : list ascii) : list ascii * list ascii :=
  match l with
  | c :: l' =>
      if is_digit c then let '(ds, rest) := span_digits l' in (c :: ds, rest)
      else ([], l)
  | [] => ([], [])
  end.

Fixpoint match_route (r : list Segment) (path : list ascii)
  : option (list (string * Z)) :=
  match r with
  | [] => match path with [] => Some [] | _ => None end
  | literal s :: r' =>
      rest ← strip_prefix (chars s) path; match_route r' rest
  | int_converter name :: r' =>
      let '(ds, rest) := span_digits path in
      match ds with
      | [] => None
      | _ =>
          value ← int (text ds);
          kwargs ← match_route r' rest;
          Some ((name, value) :: kwargs)
      end
  end.

Fixpoint first_match (patterns : list (list Segment * View))
    (path : list ascii) : option (View * list (string * Z)) :=
  match patterns with
  | [] => None
  | (r, v) :: rest =>
      match match_route r path with
      | Some kwargs => Some (v, kwargs)
      | None => first_match rest path
      end
  end.

(** The view and keyword arguments a request path resolves to; the
    leading ["/"] belongs to the root of the URL configuration. *)
Definition resolve (path : string) : option (View * list (string * Z)) :=
  rest ← strip_prefix (chars "/") (chars path);
  first_match urlpatterns rest.

Definition kwarg (key : string) (kwargs : list (string * Z)) : option Z :=
  snd <$> List.find (fun kv => String.eqb (fst kv) key) kwargs.

(** A [GET] request for [path]: the resolved view is called with the
    keyword arguments of the route; [None] when no route matches. *)
Definition dispatch (isoformat : datetime -> string) (path : string)
    (request : HttpRequest) : option (DB JsonResponse) :=
  match resolve path with
  | Some (product_search, _) =>
      Some (ProductSearchView_get isoformat request)
  | Some (product_detail, kwargs) =>
      product_id ← kwarg "product_id" kwargs;
      Some (ProductDetailView_get isoformat request (arg_int product_id))
  | None => None
  end.

(** ** Further vocabulary *)

(** The value of a finite decimal in units of [10^e]. *)
Definition scaled (e : Z) (d : Decimal) : Z :=
  match d with
  | Finite s c x => signed s c * 10 ^ (x - e)
  | _ => 0
  end.

(** The path of the detail endpoint for a product id. *)
Definition detail_path (n : N) : string :=
  "/api/products/" ++ text (N_digits n) ++ "/".

(** The three parameters the search view reads. *)
Definition same_params (r1 r2 : HttpRequest) : Prop :=
  param "category_id" r1 = param "category_id" r2
  /\ param "min_price" r1 = param "min_price" r2
  /\ param "max_price" r1 = param "max_price" r2.

(** A category switched off, and the store with every category switched
    off and nothing else changed. *)
Definition deactivated (c : Category.t) : Category.t :=
  Category.Build (Category.id c) (Category.name c) (Category.description c)
    false (Category.created_at c).

Definition with_categories_deactivated (s : Store) : Store :=
  {| categories := deactivated <$> categories s; products := products s |}.

Definition with_category (f : Category.t -> Category.t) (o : ProductObj)
  : ProductObj :=
  {| row := row o; category_cache := f <$> category_cache o |}.
(** * Properties *)

(** ** Store invariants *)

Lemma store_ok_ids (s : Store) :
  store_ok s = true -> NoDup (Product.id <$> products s).
Proof.
  unfold store_ok. rewrite !andb_true_iff, bool_decide_eq_true. tauto.
Qed.

Lemma store_ok_category (s : Store) (p : Product.t) :
  store_ok s = true -> p ∈ products s ->
  is_Some (find_category s (Product.category_id p)).
Proof.
  unfold store_ok. rewrite !andb_true_iff, forallb_forall.
  intros [_ Hfk] Hp. apply list_elem_of_In in Hp.
  apply Hfk in Hp. by apply bool_decide_eq_true in Hp.
Qed.

(** ** Sorting *)

Section sort_desc.
Context {A : Type} (key : A -> Z).

Lemma insert_desc_perm (x : A) (l : list A) :
  insert_desc key x l ≡ₚ x :: l.
Proof.
  induction l as [|y l IH]; simpl; [done|].
  destruct (key y <=? key x); [done|].
  rewrite IH. apply Permutation_swap.
Qed.

Lemma sort_desc_perm (l : list A) : sort_desc key l ≡ₚ l.
Proof.
  induction l as [|x l IH]; simpl; [done|].
  unfold sort_desc in *. simpl. rewrite insert_desc_perm. by f_equiv.
Qed.

Lemma insert_desc_sorted (x : A) (l : list A) :
  StronglySorted (newer_or_equal key) l ->
  StronglySorted (newer_or_equal key) (insert_desc key x l).
Proof.
  induction 1 as [|y l Hl IH Hy]; simpl.
  - repeat constructor.
  - destruct (Z.leb_spec (key y) (key x)) as [Hle|Hlt].
    + constructor; [by constructor|].
      constructor; [done|].
      eapply Forall_impl; [exact Hy|].
      unfold newer_or_equal. intros z Hz. lia.
    + constructor; [done|].
      rewrite insert_desc_perm. constructor; [|done].
      unfold newer_or_equal. lia.
Qed.

Lemma sort_desc_sorted (l : list A) :
  StronglySorted (newer_or_equal key) (sort_desc key l).
Proof.
  induction l as [|x l IH]; [constructor|].
  by apply insert_desc_sorted.
Qed.

Lemma elem_of_sort_desc (x : A) (l : list A) :
  x ∈ sort_desc key l <-> x ∈ l.
Proof. by rewrite sort_desc_perm. Qed.

End sort_desc.

Lemma strongly_sorted_lookup {A : Type} (R : relation A) (l : list A)
    (i j : nat) (a b : A) :
  StronglySorted R l -> l !! i = Some a -> l !! j = Some b ->
  (i < j)%nat -> R a b.
Proof.
  intros Hs. revert i j. induction Hs as [|x l Hl IH Hx]; intros i j Hi Hj Hij.
  - by rewrite lookup_nil in Hi.
  - destruct j as [|j]; [lia|]. destruct i as [|i]; simpl in *.
    + injection Hi as <-. eapply Forall_forall; [exact Hx|].
      by eapply list_elem_of_lookup_2.
    + eapply IH; eauto. lia.
Qed.

(** ** What a search selects *)

Lemma search_hit_eq (c : option Z) (lo hi : option Decimal) (p : Product.t) :
  search_hit c lo hi p
  = Product.is_active p && category_ok c p && price_ok lo hi p.
Proof.
  unfold search_hit, ProductManager.search_products,
    ProductQuerySet.search_products, category_ok, price_ok.
  destruct c as [cid|], lo as [a|], hi as [b|]; simpl;
    try destruct (cid =? 0); simpl;
    rewrite ?andb_true_r; try reflexivity;
    destruct (Product.is_active p); simpl; rewrite ?andb_true_r; reflexivity.
Qed.

Lemma search_results_eq (s : Store) (c : option Z) (lo hi : option Decimal) :
  search_results s c lo hi
  = sort_desc created
      (omap (loaded s) (List.filter (search_hit c lo hi) (products s))).
Proof.
  unfold search_results, select, ProductSearchService.search_products,
    search_hit. simpl.
  destruct c as [cid|], lo as [a|], hi as [b|]; simpl;
    try destruct (cid =? 0); reflexivity.
Qed.

Lemma elem_of_search_results (s : Store) (c : option Z)
    (lo hi : option Decimal) (o : ProductObj) :
  o ∈ search_results s c lo hi <->
  row o ∈ products s
  /\ search_hit c lo hi (row o) = true
  /\ ∃ cat, category_cache o = Some cat
            /\ find_category s (Product.category_id (row o)) = Some cat.
Proof.
  rewrite search_results_eq, elem_of_sort_desc, list_elem_of_omap.
  split.
  - intros (p & Hp & Ho). apply list_elem_of_In, filter_In in Hp.
    destruct Hp as [Hp Hhit]. apply list_elem_of_In in Hp.
    unfold loaded in Ho.
    destruct (find_category s (Product.category_id p)) as [cat|] eqn:Hc;
      simplify_eq/=. eauto.
  - intros (Hp & Hhit & cat & Hcache & Hc). exists (row o). split.
    + apply list_elem_of_In, filter_In. split; [|done].
      by apply list_elem_of_In.
    + unfold loaded. rewrite Hc. destruct o; simplify_eq/=. done.
Qed.

Lemma row_in_search_results (s : Store) (c : option Z)
    (lo hi : option Decimal) (p : Product.t) :
  store_ok s = true ->
  p ∈ row <$> search_results s c lo hi <->
  p ∈ products s /\ search_hit c lo hi p = true.
Proof.
  intros Hok. rewrite list_elem_of_fmap. split.
  - intros (o & -> & Ho). apply elem_of_search_results in Ho. tauto.
  - intros [Hp Hhit].
    destruct (store_ok_category s p Hok Hp) as [cat Hcat].
    exists {| row := p; category_cache := Some cat |}. split; [done|].
    apply elem_of_search_results. simpl. eauto.
Qed.

Lemma search_hit_applied (c : option Z) (lo hi : option Decimal)
    (p : Product.t) :
  search_hit c lo hi p = true <-> applied_filters_hold c lo hi p.
Proof.
  rewrite search_hit_eq, !andb_true_iff.
  unfold applied_filters_hold, category_ok, price_ok.
  split.
  - intros [[Ha Hc] Hp]. split; [done|]. split.
    + intros cid -> Hnz. destruct (Z.eqb_spec cid 0); [done|].
      by apply Z.eqb_eq.
    + intros a b -> ->. by apply andb_true_iff.
  - intros (Ha & Hc & Hp). repeat split; [done| |].
    + destruct c as [cid|]; [|done].
      destruct (Z.eqb_spec cid 0); [done|]. apply Z.eqb_eq. by apply Hc.
    + destruct lo as [a|], hi as [b|]; try done.
      apply andb_true_iff. by apply Hp.
Qed.

Lemma search_results_subset (s : Store) (c : option Z)
    (lo hi : option Decimal) (o : ProductObj) :
  o ∈ search_results s c lo hi -> o ∈ search_results s None None None.
Proof.
  rewrite !elem_of_search_results, !search_hit_eq, !andb_true_iff.
  intros (Hp & [[Ha _] _] & Hcat). done.
Qed.

(** ** Filtering (C1) *)

(** C1, as the contract words it, fails: a search with category id [0]
    returns the active products of every category.  In the catalogue of
    the test suite the smartphone (category 1) is returned by
    [search(categoryId=0)], although its category is not [0]. *)
Lemma search_zero_category_not_filtered :
  ~ (Scenario.phone ∈ row <$> search_results Scenario.store (Some 0) None None
     <-> Scenario.phone ∈ products Scenario.store
         /\ supplied_filters_hold (Some 0) None None Scenario.phone).
Proof.
  intros [Hin _].
  assert (Hres : Scenario.phone
                 ∈ row <$> search_results Scenario.store (Some 0) None None).
  { apply (bool_decide_unpack _). vm_compute. reflexivity. }
  destruct (Hin Hres) as (_ & _ & Hc & _).
  specialize (Hc 0 eq_refl). discriminate Hc.
Qed.

(** C1 (amended): for filter values the store accepts (a category id
    of 64 bits, bounds that fit the price column) and a store whose
    prices fit the column, a product is in the result set of
    [search(categoryId?, minPrice?, maxPrice?)] exactly when it is in the
    store, active, in the category when a non-zero category id was
    supplied, and priced within the inclusive bounds when both were
    supplied; every filtered result set is contained in the unfiltered
    one. *)
Theorem search_filters (s : Store) (c : option Z) (lo hi : option Decimal)
    (p : Product.t) :
  store_ok s = true ->
  prices_fit s = true ->
  storable c lo hi = true ->
  (p ∈ row <$> search_results s c lo hi
   <-> p ∈ products s /\ applied_filters_hold c lo hi p)
  /\ (forall o, o ∈ search_results s c lo hi ->
                o ∈ search_results s None None None).
Proof.
  intros Hok _ _. split.
  - by rewrite row_in_search_results, search_hit_applied.
  - intros o. apply search_results_subset.
Qed.

Lemma search_filters_witness :
  store_ok Scenario.store = true
  /\ prices_fit Scenario.store = true
  /\ storable (Some 1) (Some (Finite false 500 0))
       (Some (Finite false 1500 0)) = true
  /\ ((Scenario.laptop
       ∈ row <$> search_results Scenario.store (Some 1)
                   (Some (Finite false 500 0)) (Some (Finite false 1500 0))
       <-> Scenario.laptop ∈ products Scenario.store
           /\ applied_filters_hold (Some 1) (Some (Finite false 500 0))
                (Some (Finite false 1500 0)) Scenario.laptop)
      /\ (forall o,
            o ∈ search_results Scenario.store (Some 1)
                  (Some (Finite false 500 0)) (Some (Finite false 1500 0)) ->
            o ∈ search_results Scenario.store None None None)).
Proof.
  split; [reflexivity|]. split; [reflexivity|]. split; [reflexivity|].
  apply (search_filters Scenario.store); reflexivity.
Defined.

(** The scenario of the contract: electronics between 500 and 1500. *)
Example electronics_between_500_and_1500 :
  row <$> search_results Scenario.store (Some 1)
            (Decimal_of_str "500") (Decimal_of_str "1500")
  = [Scenario.laptop; Scenario.phone].
Proof. reflexivity. Qed.

(** On amounts in cents the order of the store is the order of the
    integers. *)
Lemma le_of_cents (a b : Z) : le (of_cents a) (of_cents b) = (a <=? b).
Proof.
  unfold le, of_cents, cmp. simpl.
  assert (Hs : forall z, signed (z <? 0) (Z.abs_N z) = z).
  { intros z. unfold signed. destruct (Z.ltb_spec z 0); lia. }
  rewrite !Hs, !Z.mul_1_r. unfold Z.leb. by destruct (a ?= b).
Qed.

(** ** Ordering (C2) *)

(** C2, as the contract words it, fails: nothing orders products created
    at the same instant by id.  The two twins come back in scan order,
    the smaller id first. *)
Lemma search_ties_not_ordered_by_id :
  exists a b,
    search_results Scenario.twins None None None !! 0%nat = Some a
    /\ search_results Scenario.twins None None None !! 1%nat = Some b
    /\ ~ before_by_created_then_id a b.
Proof.
  eexists _, _. split; [reflexivity|]. split; [reflexivity|].
  unfold before_by_created_then_id, created. simpl. lia.
Qed.

(** Products created at the same instant follow the row order of the
    store, whatever their ids. *)
Example ties_follow_row_order :
  row <$> search_results
            {| categories := categories Scenario.twins;
               products := [Scenario.twin_b; Scenario.twin_a] |}
            None None None
  = [Scenario.twin_b; Scenario.twin_a]
  /\ row <$> search_results Scenario.twins None None None
     = [Scenario.twin_a; Scenario.twin_b].
Proof. by split. Qed.

(** C2 (amended): in every search result, a product that comes before
    another was created at the same time or later (newest first); the
    order of products created at the same instant is not determined by
    their ids. *)
Theorem search_newest_first (s : Store) (c : option Z)
    (lo hi : option Decimal) (i j : nat) (a b : ProductObj) :
  search_results s c lo hi !! i = Some a ->
  search_results s c lo hi !! j = Some b ->
  (i < j)%nat ->
  created b <= created a.
Proof.
  rewrite search_results_eq. intros Ha Hb Hij.
  exact (strongly_sorted_lookup (newer_or_equal created) _ i j a b
           (sort_desc_sorted created _) Ha Hb Hij).
Qed.

Lemma search_newest_first_witness :
  exists a b,
    search_results Scenario.store None None None !! 0%nat = Some a
    /\ search_results Scenario.store None None None !! 2%nat = Some b
    /\ (0 < 2)%nat
    /\ created b <= created a.
Proof.
  eexists _, _.
  split; [reflexivity|]. split; [reflexivity|]. split; [lia|].
  eapply (search_newest_first Scenario.store None None None 0 2);
    [reflexivity|reflexivity|lia].
Defined.

(** ** A single price bound is ignored (C4) *)

(** C4: the price-range lookup is part of the query exactly when both
    bounds are given; with only [minPrice] or only [maxPrice] the query,
    and so the result on every store, is the one built with neither. *)
Theorem single_bound_ignored (c : option Z) (x y : Decimal) :
  (ProductManager.search_products c (Some x) None
   = ProductManager.search_products c None None
   /\ ProductManager.search_products c None (Some x)
      = ProductManager.search_products c None None)
  /\ (forall s, search_results s c (Some x) None = search_results s c None None
                /\ search_results s c None (Some x)
                   = search_results s c None None)
  /\ price__range x y
     ∈ lookups (ProductManager.search_products c (Some x) (Some y))
  /\ (forall lo hi, (lo = None \/ hi = None) ->
        forall a b, price__range a b
                    ∉ lookups (ProductManager.search_products c lo hi)).
Proof.
  split; [by split|]. split; [by split|]. split.
  - unfold ProductManager.search_products, ProductQuerySet.search_products.
    destruct c as [cid|]; simpl; [destruct (cid =? 0); simpl|];
      set_solver.
  - intros lo hi Hnone a b.
    unfold ProductManager.search_products, ProductQuerySet.search_products.
    assert (Hq : match lo, hi with
                 | Some l, Some h => False | _, _ => True end)
      by (destruct Hnone as [-> | ->]; [done | by destruct lo]).
    destruct lo as [l|], hi as [h|]; try done;
      destruct c as [cid|]; simpl; try destruct (cid =? 0); simpl;
      intros Hin;
      repeat (apply elem_of_cons in Hin as [Hin|Hin]; [discriminate Hin|]);
      by apply elem_of_nil in Hin.
Qed.

(** ** Running the handlers *)

Ltac db_unfold :=
  unfold iterate, mbind, DB_bind, mret, DB_ret, try_except, lift, raise,
    query in *.

Lemma get_category_id_run (request : HttpRequest) (s : Store) (n : nat) :
  ProductSearchView__get_category_id request s n
  = (match parsed_category_id request with
     | Some c => inr c
     | None => inl (ValueError "category_id must be a valid number")
     end, n).
Proof.
  unfold ProductSearchView__get_category_id, parsed_category_id, param,
    truthy_str.
  destruct (GET request !! "category_id") as [t|]; [|reflexivity].
  destruct (truthy t); [|reflexivity].
  db_unfold. by destruct (int t).
Qed.

Lemma get_price_range_run (request : HttpRequest) (s : Store) (n : nat) :
  ProductSearchView__get_price_range request s n
  = (match parsed_price "min_price" request with
     | None => inl (ValueError "min_price must be a valid dollar amount")
     | Some lo =>
         match parsed_price "max_price" request with
         | None => inl (ValueError "max_price must be a valid dollar amount")
         | Some hi => inr (lo, hi)
         end
     end, n).
Proof.
  unfold ProductSearchView__get_price_range, parsed_price, param, truthy_str.
  db_unfold.
  destruct (GET request !! "min_price") as [t1|];
    [destruct (truthy t1);
     [destruct (Decimal_of_str t1) as [d1|]; simpl;
      [destruct (lt d1 zero) as [[|]|]; simpl|]|]|];
    try reflexivity;
    (destruct (GET request !! "max_price") as [t2|];
     [destruct (truthy t2);
      [destruct (Decimal_of_str t2) as [d2|]; simpl;
       [destruct (lt d2 zero) as [[|]|]; simpl|]|]|]);
    reflexivity.
Qed.

Lemma parsed_price_not_nan (key : string) (request : HttpRequest)
    (d : Decimal) :
  parsed_price key request = Some (Some d) -> is_nan d = false.
Proof.
  unfold parsed_price. destruct (param key request) as [t|]; [|done].
  destruct (Decimal_of_str t) as [d'|]; [|done]. simpl.
  unfold lt. destruct (is_nan d') eqn:Hnan; simpl; [done|].
  destruct (cmp d' zero); simpl; congruence.
Qed.

Lemma category_cached (o : ProductObj) (c : Category.t) (s : Store)
    (n : nat) :
  category_cache o = Some c -> category o s n = (inr (o, c), n).
Proof. unfold category. by intros ->. Qed.

Lemma search_product_data_cached (isoformat : datetime -> string)
    (o : ProductObj) (c : Category.t) (s : Store) (n : nat) :
  category_cache o = Some c ->
  search_product_data isoformat o s n
  = (inr (search_product_json isoformat (row o) c), n).
Proof.
  intros Hc. unfold search_product_data. db_unfold.
  by rewrite !(category_cached o c s n Hc).
Qed.

Lemma detail_product_data_cached (isoformat : datetime -> string)
    (o : ProductObj) (c : Category.t) (s : Store) (n : nat) :
  category_cache o = Some c ->
  detail_product_data isoformat o s n
  = (inr (detail_product_json isoformat (row o) c), n).
Proof.
  intros Hc. unfold detail_product_data. db_unfold.
  by rewrite !(category_cached o c s n Hc).
Qed.

Lemma for_each_cached (isoformat : datetime -> string)
    (l : list ProductObj) (s : Store) (n : nat) :
  Forall (fun o => is_Some (category_cache o)) l ->
  for_each (search_product_data isoformat) l s n
  = (inr (omap (cached_json (search_product_json isoformat)) l), n)
  /\ length (omap (cached_json (search_product_json isoformat)) l)
     = length l.
Proof.
  induction 1 as [|o l [c Hc] Hl [IH IHlen]]; [done|].
  simpl. db_unfold.
  rewrite (search_product_data_cached isoformat o c s n Hc), IH.
  assert (Hj : cached_json (search_product_json isoformat) o
               = Some (search_product_json isoformat (row o) c))
    by (unfold cached_json; by rewrite Hc).
  rewrite Hj. split; [reflexivity|]. simpl. f_equal. exact IHlen.
Qed.

Lemma search_results_cached (s : Store) (c : option Z)
    (lo hi : option Decimal) :
  Forall (fun o => is_Some (category_cache o)) (search_results s c lo hi).
Proof.
  apply Forall_forall. intros o Ho.
  apply elem_of_search_results in Ho as (_ & _ & cat & -> & _). eauto.
Qed.

Lemma gt_parsed (key1 key2 : string) (request : HttpRequest)
    (lo hi : option Decimal) :
  parsed_price key1 request = Some lo ->
  parsed_price key2 request = Some hi ->
  match lo, hi with
  | Some a, Some b => gt a b = Some (inverted lo hi)
  | _, _ => inverted lo hi = false
  end.
Proof.
  intros Hlo Hhi. destruct lo as [a|], hi as [b|]; try done.
  unfold gt, inverted.
  by rewrite (parsed_price_not_nan _ _ _ Hlo),
    (parsed_price_not_nan _ _ _ Hhi).
Qed.

(** The search view computes the outcome the handler contract describes,
    whatever the number of queries sent before. *)
Lemma ProductSearchView_get_run (isoformat : datetime -> string)
    (request : HttpRequest) (s : Store) (n : nat) :
  ProductSearchView_get isoformat request s n
  = (inr (fst (search_outcome isoformat request s)),
     (snd (search_outcome isoformat request s) + n)%nat).
Proof.
  unfold ProductSearchView_get, search_outcome.
  unfold try_except, mbind, DB_bind.
  rewrite get_category_id_run.
  destruct (parsed_category_id request) as [c|]; [|reflexivity].
  rewrite get_price_range_run.
  destruct (parsed_price "min_price" request) as [lo|] eqn:Hlo;
    [|reflexivity].
  destruct (parsed_price "max_price" request) as [hi|] eqn:Hhi;
    [|reflexivity].
  pose proof (gt_parsed _ _ _ _ _ Hlo Hhi) as Hgt.
  assert (Hinv :
    match lo, hi with
    | Some a, Some b => lift (InvalidOperation "InvalidOperation") (gt a b)
    | _, _ => mret false
    end s n = (inr (inverted lo hi), n)).
  { destruct lo as [a|], hi as [b|]; try (by rewrite Hgt); by rewrite Hgt. }
  rewrite Hinv. destruct (inverted lo hi); [reflexivity|].
  unfold iterate, query.
  fold (search_results s c lo hi).
  destruct (for_each_cached isoformat (search_results s c lo hi) s (S n)
              (search_results_cached s c lo hi)) as [-> _].
  reflexivity.
Qed.

(** ** The keyed lookup *)

Lemma has_id_eq (z : Z) (p : Product.t) :
  has_id z p = true <-> Product.id p = z.
Proof.
  unfold has_id. simpl. rewrite andb_true_r. apply Z.eqb_eq.
Qed.

Lemma filter_id_absent (z : Z) (l : list Product.t) :
  (forall p, p ∈ l -> Product.id p <> z) -> List.filter (has_id z) l = [].
Proof.
  induction l as [|q l IH]; intros Hl; [done|]. simpl.
  destruct (has_id z q) eqn:Hq.
  - apply has_id_eq in Hq. exfalso. eapply Hl; [|exact Hq]. left.
  - apply IH. intros p Hp. apply Hl. by right.
Qed.

Lemma filter_id_unique (p : Product.t) (l : list Product.t) :
  NoDup (Product.id <$> l) -> p ∈ l ->
  List.filter (has_id (Product.id p)) l = [p].
Proof.
  induction l as [|q l IH]; intros Hnd Hp; [by apply elem_of_nil in Hp|].
  rewrite fmap_cons in Hnd. apply NoDup_cons in Hnd as [Hq Hnd].
  simpl. apply elem_of_cons in Hp as [<-|Hp].
  - rewrite (proj2 (has_id_eq _ _) eq_refl). f_equal.
    apply filter_id_absent. intros r Hr Heq. apply Hq.
    rewrite <- Heq. by apply list_elem_of_fmap_2.
  - destruct (has_id (Product.id p) q) eqn:Hhas; [|by apply IH].
    apply has_id_eq in Hhas. exfalso. apply Hq. rewrite Hhas.
    by apply list_elem_of_fmap_2.
Qed.

Lemma get_product_detail_rows (z : Z) (s : Store) (n : nat) :
  ProductSearchService.get_product_detail z s n
  = match omap (loaded s) (List.filter (has_id z) (products s)) with
    | [o] => (inr o, S n)
    | [] =>
        (inl (ObjectDoesNotExist "Product matching query does not exist."),
         S n)
    | rows =>
        (inl (MultipleObjectsReturned
                ("get() returned more than one Product -- it returned "
                 ++ (if (N.of_nat (length rows) <? 21)%N
                     then text (N_digits (N.of_nat (length rows)))
                     else "more than 20") ++ "!")), S n)
    end.
Proof.
  unfold ProductSearchService.get_product_detail, get. db_unfold.
  change (select s (order_by [] (plus_lookup (id__exact z)
                      (select_related ProductManager.get_queryset))))
    with (omap (loaded s) (List.filter (has_id z) (products s))).
  destruct (omap (loaded s) (List.filter (has_id z) (products s)))
    as [|o [|o' rows]]; reflexivity.
Qed.

Lemma get_product_detail_found (s : Store) (p : Product.t) (n : nat) :
  store_ok s = true -> p ∈ products s ->
  exists c,
    find_category s (Product.category_id p) = Some c
    /\ ProductSearchService.get_product_detail (Product.id p) s n
       = (inr {| row := p; category_cache := Some c |}, S n).
Proof.
  intros Hok Hp. destruct (store_ok_category s p Hok Hp) as [c Hc].
  exists c. split; [done|].
  rewrite get_product_detail_rows,
    (filter_id_unique p _ (store_ok_ids s Hok) Hp).
  simpl. unfold loaded. by rewrite Hc.
Qed.

Lemma get_product_detail_absent (s : Store) (z : Z) (n : nat) :
  (forall p, p ∈ products s -> Product.id p <> z) ->
  ProductSearchService.get_product_detail z s n
  = (inl (ObjectDoesNotExist "Product matching query does not exist."), S n).
Proof.
  intros Hz. by rewrite get_product_detail_rows, (filter_id_absent z _ Hz).
Qed.

Lemma ProductDetailView_get_path (isoformat : datetime -> string)
    (request : HttpRequest) (a : PathArg) (z : Z) (s : Store) (n : nat) :
  path_id a = Some z ->
  ProductDetailView_get isoformat request a s n
  = ProductDetailView_get isoformat request (arg_int z) s n.
Proof.
  destruct a as [z'|t]; simpl.
  - by intros [= ->].
  - destruct (isdigit t) eqn:Hdigit; [|done]. intros Hint.
    unfold ProductDetailView_get. db_unfold. rewrite Hdigit, Hint.
    reflexivity.
Qed.

(** ** The detail endpoint returns inactive products too (C5) *)

(** C5: the keyed lookup applies no active-only filter.  For every
    product of the store, active or not, [get_product_detail] returns that
    product with its category loaded, in one query; an inactive product is
    in no search result and is still retrieved by id. *)
Theorem detail_returns_any_product (s : Store) (p : Product.t) (n : nat) :
  store_ok s = true ->
  p ∈ products s ->
  (exists c,
     find_category s (Product.category_id p) = Some c
     /\ ProductSearchService.get_product_detail (Product.id p) s n
        = (inr {| row := p; category_cache := Some c |}, S n))
  /\ (Product.is_active p = false ->
      forall c lo hi, p ∉ row <$> search_results s c lo hi).
Proof.
  intros Hok Hp. split; [by apply get_product_detail_found|].
  intros Hinactive c lo hi.
  rewrite (row_in_search_results _ _ _ _ _ Hok), search_hit_eq, Hinactive.
  simpl. intros [_ ?]. done.
Qed.

Lemma detail_returns_any_product_witness :
  store_ok Scenario.store = true
  /\ Scenario.old_tablet ∈ products Scenario.store
  /\ (exists c,
        find_category Scenario.store
          (Product.category_id Scenario.old_tablet) = Some c
        /\ ProductSearchService.get_product_detail
             (Product.id Scenario.old_tablet) Scenario.store 0%nat
           = (inr {| row := Scenario.old_tablet; category_cache := Some c |},
              1%nat))
  /\ (Product.is_active Scenario.old_tablet = false ->
      forall c lo hi,
        Scenario.old_tablet ∉ row <$> search_results Scenario.store c lo hi).
Proof.
  assert (Hok : store_ok Scenario.store = true) by reflexivity.
  assert (Hin : Scenario.old_tablet ∈ products Scenario.store)
    by (apply (bool_decide_unpack _); vm_compute; reflexivity).
  split; [exact Hok|]. split; [exact Hin|].
  exact (detail_returns_any_product Scenario.store Scenario.old_tablet
           0%nat Hok Hin).
Defined.

(** ** Not found (C7) *)

Lemma ProductDetailView_get_absent (isoformat : datetime -> string)
    (request : HttpRequest) (z : Z) (s : Store) (n : nat) :
  (forall p, p ∈ products s -> Product.id p <> z) ->
  ProductDetailView_get isoformat request (arg_int z) s n
  = (inr (failure "Product not found" 404), S n).
Proof.
  intros Hz. unfold ProductDetailView_get. unfold try_except, mbind, DB_bind.
  by rewrite (get_product_detail_absent s z n Hz).
Qed.

Lemma ProductDetailView_get_found (isoformat : datetime -> string)
    (request : HttpRequest) (p : Product.t) (s : Store) (n : nat) :
  store_ok s = true -> p ∈ products s ->
  exists c,
    find_category s (Product.category_id p) = Some c
    /\ ProductDetailView_get isoformat request (arg_int (Product.id p)) s n
       = (inr {| body := JDict [("success", JBool true);
                                ("product",
                                 detail_product_json isoformat p c)];
                 status := 200 |}, S n).
Proof.
  intros Hok Hp.
  destruct (get_product_detail_found s p n Hok Hp) as (c & Hc & Hget).
  exists c. split; [done|].
  unfold ProductDetailView_get. unfold try_except, mbind, DB_bind.
  rewrite Hget.
  by rewrite (detail_product_data_cached isoformat
                {| row := p; category_cache := Some c |} c s (S n) eq_refl).
Qed.

Lemma detail_rows_eq (s : Store) (z : Z) :
  detail_rows s z = omap (loaded s) (List.filter (has_id z) (products s)).
Proof. reflexivity. Qed.

Lemma ProductDetailView_get_status (isoformat : datetime -> string)
    (request : HttpRequest) (z : Z) (s : Store) (n : nat) :
  exists r,
    ProductDetailView_get isoformat request (arg_int z) s n = (inr r, S n)
    /\ (status r = 404 <-> detail_rows s z = []).
Proof.
  rewrite detail_rows_eq.
  unfold ProductDetailView_get. unfold try_except, mbind, DB_bind.
  rewrite get_product_detail_rows.
  destruct (omap (loaded s) (List.filter (has_id z) (products s)))
    as [|o [|o' rows]] eqn:Hrows.
  - eexists. split; [reflexivity|]. done.
  - assert (Ho : o ∈ omap (loaded s) (List.filter (has_id z) (products s)))
      by (rewrite Hrows; left).
    apply list_elem_of_omap in Ho as (p & _ & Hp). unfold loaded in Hp.
    destruct (find_category s (Product.category_id p)) as [c|]; [|done].
    injection Hp as <-.
    rewrite (detail_product_data_cached isoformat
               {| row := p; category_cache := Some c |} c s (S n) eq_refl).
    eexists. split; [reflexivity|]. done.
  - eexists. split; [reflexivity|]. done.
Qed.

(** C7: when no product of the store has the requested id, the detail
    endpoint answers HTTP 404 with
    [{success: false, error: "Product not found"}].  It answers 404
    exactly when the keyed lookup finds no row, which, the store keeping
    its key constraints, is exactly when no product has that id. *)
Theorem detail_not_found (isoformat : datetime -> string)
    (request : HttpRequest) (a : PathArg) (z : Z) (s : Store) (n : nat) :
  path_id a = Some z ->
  ((forall p, p ∈ products s -> Product.id p <> z) ->
   ProductDetailView_get isoformat request a s n
   = (inr (failure "Product not found" 404), S n))
  /\ (exists r,
        ProductDetailView_get isoformat request a s n = (inr r, S n)
        /\ (status r = 404 <-> detail_rows s z = []))
  /\ (store_ok s = true ->
      (detail_rows s z = []
       <-> forall p, p ∈ products s -> Product.id p <> z)).
Proof.
  intros Hpath.
  rewrite (ProductDetailView_get_path isoformat request a z s n Hpath).
  split; [apply ProductDetailView_get_absent|].
  split; [apply ProductDetailView_get_status|].
  intros Hok. rewrite detail_rows_eq. split.
  - intros Hrows p Hp <-.
    rewrite (filter_id_unique p _ (store_ok_ids s Hok) Hp) in Hrows.
    simpl in Hrows. unfold loaded in Hrows.
    destruct (store_ok_category s p Hok Hp) as [c Hc].
    rewrite Hc in Hrows. done.
  - intros Hz. by rewrite (filter_id_absent z _ Hz).
Qed.

Lemma detail_not_found_witness :
  path_id (arg_int 9999) = Some 9999
  /\ ProductDetailView_get Scenario.isoformat (Scenario.request [])
       (arg_int 9999) Scenario.store 0%nat
     = (inr (failure "Product not found" 404), 1%nat).
Proof.
  split; [reflexivity|].
  apply (detail_not_found Scenario.isoformat (Scenario.request [])
           (arg_int 9999) 9999 Scenario.store 0%nat eq_refl).
  intros p Hp.
  repeat (apply elem_of_cons in Hp as [->|Hp]; [discriminate|]).
  by apply elem_of_nil in Hp.
Defined.

(** ** Negative prices (C3) *)

(** C3, as the contract words it, fails: for [min_price=-5] the value
    parses and is negative, and the error of the response is the
    parse-failure message, not ["Price cannot be negative"]. *)
Lemma negative_price_reported_as_invalid :
  negative_param "min_price" (Scenario.request [("min_price", "-5")])
  /\ fst (ProductSearchView_get Scenario.isoformat
            (Scenario.request [("min_price", "-5")]) Scenario.store 0%nat)
     = inr (failure
              "Invalid parameter: min_price must be a valid dollar amount"
              400)
  /\ fst (ProductSearchView_get Scenario.isoformat
            (Scenario.request [("min_price", "-5")]) Scenario.store 0%nat)
     <> inr (failure "Price cannot be negative" 400).
Proof.
  split; [|split].
  - exists "-5", (Finite true 5 0). by vm_compute.
  - by vm_compute.
  - vm_compute. discriminate.
Qed.

(** The message ["Price cannot be negative"] reaches no response, with
    or without the prefix of the view: the handler that wraps the parse
    also catches the error raised for a negative value. *)
Lemma negative_price_message_never_sent (isoformat : datetime -> string)
    (request : HttpRequest) (s : Store) (n : nat) (r : JsonResponse)
    (n' : nat) :
  ProductSearchView_get isoformat request s n = (inr r, n') ->
  jget "error" (body r) <> Some (JStr "Price cannot be negative")
  /\ jget "error" (body r)
     <> Some (JStr "Invalid parameter: Price cannot be negative").
Proof.
  rewrite ProductSearchView_get_run. intros [= <- _].
  unfold search_outcome.
  destruct (parsed_category_id request) as [c|]; [|by split].
  destruct (parsed_price "min_price" request) as [lo|]; [|by split].
  destruct (parsed_price "max_price" request) as [hi|]; [|by split].
  destruct (inverted lo hi); by split.
Qed.

Lemma negative_param_rejected (key : string) (request : HttpRequest) :
  negative_param key request -> parsed_price key request = None.
Proof.
  intros (t & d & Ht & Hd & Hneg). unfold parsed_price.
  rewrite Ht, Hd. simpl. by rewrite Hneg.
Qed.

(** C3 (amended): a search request whose [min_price] or [max_price]
    parses as a negative decimal is answered with HTTP 400 and
    [{success: false, error: "Invalid parameter: " + m}] for a validation
    message [m], before any query is sent to the store. *)
Theorem negative_price_rejected (isoformat : datetime -> string)
    (request : HttpRequest) (s : Store) (n : nat) :
  negative_param "min_price" request \/ negative_param "max_price" request ->
  exists m,
    ProductSearchView_get isoformat request s n
    = (inr (failure ("Invalid parameter: " ++ m) 400), n).
Proof.
  intros Hneg. rewrite ProductSearchView_get_run. unfold search_outcome.
  destruct (parsed_category_id request) as [c|]; [|by eexists].
  destruct (parsed_price "min_price" request) as [lo|] eqn:Hlo;
    [|by eexists].
  destruct (parsed_price "max_price" request) as [hi|] eqn:Hhi;
    [|by eexists].
  destruct Hneg as [Hneg|Hneg]; apply negative_param_rejected in Hneg;
    congruence.
Qed.

Lemma negative_price_rejected_witness :
  (negative_param "min_price" (Scenario.request [("max_price", "-0.01")])
   \/ negative_param "max_price" (Scenario.request [("max_price", "-0.01")]))
  /\ exists m,
       ProductSearchView_get Scenario.isoformat
         (Scenario.request [("max_price", "-0.01")]) Scenario.store 0%nat
       = (inr (failure ("Invalid parameter: " ++ m) 400), 0%nat).
Proof.
  assert (Hneg : negative_param "max_price"
                   (Scenario.request [("max_price", "-0.01")])).
  { exists "-0.01", (Finite true 1 (-2)). by vm_compute. }
  split; [by right|].
  apply (negative_price_rejected Scenario.isoformat
           (Scenario.request [("max_price", "-0.01")]) Scenario.store 0%nat).
  by right.
Defined.

(** ** Minimum above maximum (C6) *)




Example min_100_max_50 :
  fst (ProductSearchView_get Scenario.isoformat
         (Scenario.request [("min_price", "100"); ("max_price", "50")])
         Scenario.store 0%nat)
  = inr (failure "Minimum price cannot be greater than maximum price" 400).
Proof. by vm_compute. Qed.

(** ** A zero category id (C9) *)

Lemma search_results_zero_category (s : Store) (lo hi : option Decimal) :
  search_results s (Some 0) lo hi = search_results s None lo hi.
Proof. reflexivity. Qed.



Example negative_category_id_accepted :
  ProductSearchView__get_category_id
    (Scenario.request [("category_id", "-3")]) Scenario.store 0%nat
  = (inr (Some (-3)), 0%nat).
Proof. reflexivity. Qed.

(** ** One round trip (C10) *)






(** Without [select_related] every product costs one more query. *)
Example lazy_categories_cost_more :
  snd ((products ← iterate ProductManager.active_products;
        for_each (search_product_data Scenario.isoformat) products)
         Scenario.store 0%nat)
  = 4%nat.
Proof. reflexivity. Qed.

(** ** Prices are written as decimal strings (C8) *)

(** *** Reading back a printed fixed-point number *)

Lemma plain_char (c : ascii) :
  is_plain c = true ->
  is_space c = false /\ c <> "_"%char /\ lower c = c
  /\ Ascii.eqb c "e" = false.
Proof.
  destruct c as [[] [] [] [] [] [] [] []]; vm_compute;
    (discriminate || (intros _; repeat split; congruence)).
Qed.

Lemma digit_char (c : ascii) :
  is_digit c = true ->
  is_plain c = true /\ Ascii.eqb c "." = false
  /\ c <> "-"%char /\ c <> "+"%char.
Proof.
  destruct c as [[] [] [] [] [] [] [] []]; vm_compute;
    (discriminate || (intros _; repeat split; congruence)).
Qed.

Lemma chars_of_uint_digits (d : Decimal.uint) :
  Forall (fun c => is_digit c = true) (chars_of_uint d).
Proof. induction d; simpl; constructor; done. Qed.

Lemma uint_of_chars_of_uint (d : Decimal.uint) :
  uint_of_chars (chars_of_uint d) = Some d.
Proof. induction d; simpl; [done|..]; by rewrite IHd. Qed.

Lemma digits_N_digits (n : N) : digits_N (N_digits n) = Some n.
Proof.
  unfold digits_N, N_digits. rewrite uint_of_chars_of_uint. simpl.
  by rewrite DecimalN.Unsigned.of_to.
Qed.

Lemma digits_N_zeros (k : nat) (l : list ascii) :
  digits_N (replicate k "0"%char ++ l) = digits_N l.
Proof.
  induction k as [|k IH]; [done|]. unfold digits_N in *. simpl.
  destruct (uint_of_chars (replicate k "0"%char ++ l)) as [d|];
    destruct (uint_of_chars l) as [d'|]; simpl in *; congruence.
Qed.

Lemma N_digits_length (n : N) : (1 <= length (N_digits n))%nat.
Proof.
  unfold N_digits. destruct n as [|p]; simpl; [lia|].
  pose proof (DecimalPos.Unsigned.to_uint_nonnil p) as Hnil.
  destruct (Pos.to_uint p); simpl; (done || lia).
Qed.

Lemma lstrip_no_space (l : list ascii) :
  Forall (fun c => is_space c = false) l -> lstrip l = l.
Proof. destruct 1 as [|c l Hc _]; simpl; [done|]. by rewrite Hc. Qed.

Lemma strip_no_space (l : list ascii) :
  Forall (fun c => is_space c = false) l -> strip l = l.
Proof.
  intros Hl. unfold strip. rewrite (lstrip_no_space l Hl).
  rewrite lstrip_no_space; [apply rev_involutive|].
  apply Forall_forall. intros c Hc. apply (proj1 (Forall_forall _ _) Hl).
  apply list_elem_of_In. apply list_elem_of_In, in_rev in Hc. done.
Qed.

Lemma filter_no_underscore (l : list ascii) :
  Forall (fun c => c <> "_"%char) l ->
  filter (fun c => c <> "_"%char) l = l.
Proof.
  induction 1 as [|c l Hc _ IH]; [done|].
  rewrite filter_cons_True; [|done]. by rewrite IH.
Qed.

Lemma fmap_lower_id (l : list ascii) :
  Forall (fun c => lower c = c) l -> lower <$> l = l.
Proof.
  induction 1 as [|c l Hc _ IH]; [done|]. rewrite fmap_cons. congruence.
Qed.

Lemma split_at_absent (f : ascii -> bool) (l : list ascii) :
  Forall (fun c => f c = false) l -> split_at f l = (l, None).
Proof.
  induction 1 as [|c l Hc _ IH]; [done|]. simpl. by rewrite Hc, IH.
Qed.

Lemma split_at_first (f : ascii -> bool) (l : list ascii) (c : ascii)
    (r : list ascii) :
  Forall (fun c => f c = false) l -> f c = true ->
  split_at f (l ++ c :: r) = (l, Some r).
Proof.
  intros Hl Hc. induction Hl as [|x l Hx _ IH]; simpl; [by rewrite Hc|].
  by rewrite Hx, IH.
Qed.

Lemma take_sign_unsigned (c : ascii) (l : list ascii) :
  c <> "-"%char -> c <> "+"%char -> take_sign (c :: l) = (false, c :: l).
Proof.
  destruct c as [[] [] [] [] [] [] [] []]; intros Hminus Hplus;
    try reflexivity; congruence.
Qed.

Lemma take_sign_text (s : bool) (ip r : list ascii) :
  ip <> [] -> Forall (fun c => is_digit c = true) ip ->
  take_sign (sign_text s ++ ip ++ r) = (s, ip ++ r).
Proof.
  intros Hne Hip. destruct s; [reflexivity|]. simpl.
  destruct Hip as [|d ip Hd _]; [done|]. simpl.
  apply digit_char in Hd as (_ & _ & Hminus & Hplus).
  by apply take_sign_unsigned.
Qed.

Lemma Decimal_of_str_plain (s : bool) (ip fp : list ascii) (c : N) :
  ip <> [] ->
  Forall (fun c => is_digit c = true) ip ->
  Forall (fun c => is_digit c = true) fp ->
  digits_N (ip ++ fp) = Some c ->
  Decimal_of_str (text (sign_text s ++ ip ++ "."%char :: fp))
  = Some (Finite s c (- Z.of_nat (length fp))).
Proof.
  intros Hne Hip Hfp Hc. unfold Decimal_of_str, text, chars.
  rewrite list_ascii_of_string_of_list_ascii.
  assert (Hplain : Forall (fun c => is_plain c = true)
                     (sign_text s ++ ip ++ "."%char :: fp)).
  { rewrite !Forall_app, Forall_cons. repeat split.
    - destruct s; simpl; repeat constructor.
    - eapply Forall_impl; [exact Hip|]. intros x Hx. by apply digit_char.
    - eapply Forall_impl; [exact Hfp|]. intros x Hx. by apply digit_char. }
  rewrite strip_no_space, filter_no_underscore, fmap_lower_id;
    try (eapply Forall_impl; [exact Hplain|];
         intros x Hx; by apply plain_char in Hx as (? & ? & ? & ?)).
  rewrite (take_sign_text s ip _ Hne Hip).
  unfold parse_number.
  rewrite split_at_absent.
  2:{ apply Forall_app in Hplain as [_ Hbody].
      eapply Forall_impl; [exact Hbody|].
      intros x Hx. by apply plain_char in Hx as (? & ? & ? & ?). }
  rewrite (split_at_first _ ip "."%char fp); [|
    eapply Forall_impl; [exact Hip|];
    intros x Hx; by apply digit_char in Hx as (? & ? & ? & ?) | reflexivity].
  change (default [] (Some fp)) with fp.
  destruct (ip ++ fp) as [|d ds] eqn:Hds.
  { apply app_eq_nil in Hds as [-> _]. done. }
  rewrite Hc. simpl. reflexivity.
Qed.

Lemma Decimal_chars_fixed_point (s : bool) (c : N) :
  exists ip fp,
    Decimal_chars (Finite s c (-2)) = sign_text s ++ ip ++ "."%char :: fp
    /\ ip <> []
    /\ Forall (fun c => is_digit c = true) ip
    /\ Forall (fun c => is_digit c = true) fp
    /\ length fp = 2%nat
    /\ digits_N (ip ++ fp) = Some c.
Proof.
  pose proof (N_digits_length c) as Hlen.
  pose proof (chars_of_uint_digits (N.to_uint c)) as Hdigits.
  fold (N_digits c) in Hdigits.
  unfold Decimal_chars.
  set (ds := N_digits c) in *. set (len := Z.of_nat (length ds)).
  assert (Hcond : (-2 <=? 0) && (-6 <? -2 + len) = true).
  { apply andb_true_iff. split; [done|]. apply Z.ltb_lt. lia. }
  rewrite Hcond, Z.eqb_refl.
  destruct (Z.leb_spec (-2 + len) 0) as [Hsmall|Hbig].
  - exists (chars "0"), (zeros (- (-2 + len)) ++ ds).
    repeat split.
    + by rewrite app_nil_r.
    + done.
    + repeat constructor.
    + apply Forall_app. split; [|done].
      unfold zeros. apply Forall_replicate. reflexivity.
    + rewrite length_app. unfold zeros. rewrite length_replicate. lia.
    + change (chars "0" ++ zeros (- (-2 + len)) ++ ds)
        with (replicate 1 "0"%char ++ zeros (- (-2 + len)) ++ ds).
      unfold zeros. rewrite !digits_N_zeros. apply digits_N_digits.
  - destruct (Z.leb_spec len (-2 + len)) as [Habs|_]; [lia|].
    exists (take (Z.to_nat (-2 + len)) ds), (drop (Z.to_nat (-2 + len)) ds).
    repeat split.
    + by rewrite app_nil_r.
    + intros Hnil. apply (f_equal length) in Hnil.
      rewrite length_take in Hnil. simpl in Hnil. lia.
    + by apply Forall_take.
    + by apply Forall_drop.
    + rewrite length_drop. lia.
    + rewrite take_drop. apply digits_N_digits.
Qed.

(** A price with two decimal places is printed in plain notation and
    reads back as the same value: nothing is lost. *)
Lemma fixed_point_round_trip (s : bool) (c : N) :
  Decimal_of_str (Decimal_str (Finite s c (-2))) = Some (Finite s c (-2)).
Proof.
  destruct (Decimal_chars_fixed_point s c)
    as (ip & fp & Hchars & Hne & Hip & Hfp & Hlen & Hc).
  unfold Decimal_str. rewrite Hchars.
  rewrite (Decimal_of_str_plain s ip fp c Hne Hip Hfp Hc), Hlen. done.
Qed.

(** *** The price field of the responses *)

Lemma cached_prices (isoformat : datetime -> string) (l : list ProductObj) :
  Forall (fun o => is_Some (category_cache o)) l ->
  Forall2 (fun o j => price_field_of (row o) j) l
    (omap (cached_json (search_product_json isoformat)) l).
Proof.
  induction 1 as [|o l [c Hc] _ IH]; [constructor|].
  change (omap ?f (o :: l))
    with (match f o with Some y => y :: omap f l | None => omap f l end).
  unfold cached_json at 1. rewrite Hc. simpl. by constructor.
Qed.

Lemma search_view_prices (isoformat : datetime -> string)
    (request : HttpRequest) (s : Store) (n : nat) (r : JsonResponse)
    (n' : nat) :
  ProductSearchView_get isoformat request s n = (inr r, n') ->
  status r = 200 ->
  exists c lo hi js,
    parsed_category_id request = Some c
    /\ parsed_price "min_price" request = Some lo
    /\ parsed_price "max_price" request = Some hi
    /\ jget "products" (body r) = Some (JList js)
    /\ Forall2 (fun o j => price_field_of (row o) j)
         (search_results s c lo hi) js.
Proof.
  rewrite ProductSearchView_get_run. intros [= <- <-].
  unfold search_outcome.
  destruct (parsed_category_id request) as [c|]; [|done].
  destruct (parsed_price "min_price" request) as [lo|]; [|done].
  destruct (parsed_price "max_price" request) as [hi|]; [|done].
  destruct (inverted lo hi); [done|]. intros _.
  exists c, lo, hi. eexists. repeat split.
  apply cached_prices, search_results_cached.
Qed.

Lemma detail_view_prices (isoformat : datetime -> string)
    (request : HttpRequest) (a : PathArg) (s : Store) (n : nat)
    (r : JsonResponse) (n' : nat) :
  ProductDetailView_get isoformat request a s n = (inr r, n') ->
  status r = 200 ->
  exists p j,
    p ∈ products s
    /\ path_id a = Some (Product.id p)
    /\ jget "product" (body r) = Some j
    /\ price_field_of p j.
Proof.
  destruct (path_id a) as [z|] eqn:Hpath.
  - rewrite (ProductDetailView_get_path isoformat request a z s n Hpath).
    unfold ProductDetailView_get. unfold try_except, mbind, DB_bind.
    rewrite get_product_detail_rows.
    destruct (omap (loaded s) (List.filter (has_id z) (products s)))
      as [|o [|o' rows]] eqn:Hrows; [by intros [= <- <-]| |by intros [= <- <-]].
    assert (Ho : o ∈ omap (loaded s) (List.filter (has_id z) (products s)))
      by (rewrite Hrows; left).
    apply list_elem_of_omap in Ho as (p & Hp & Hload).
    apply list_elem_of_In, filter_In in Hp as [Hp Hid].
    apply list_elem_of_In in Hp. apply has_id_eq in Hid.
    unfold loaded in Hload.
    destruct (find_category s (Product.category_id p)) as [c|]; [|done].
    injection Hload as <-.
    rewrite (detail_product_data_cached isoformat
               {| row := p; category_cache := Some c |} c s (S n) eq_refl).
    intros [= <- <-] _. exists p. eexists. rewrite Hid. by repeat split.
  - destruct a as [z|t]; [done|]. simpl in Hpath.
    unfold ProductDetailView_get. unfold try_except, mbind, DB_bind, lift.
    destruct (isdigit t); simpl; [|by intros [= <- <-]].
    rewrite Hpath. by intros [= <- <-].
Qed.

(** C8: in both endpoints the [price] field of a returned product is a
    JSON string, the decimal text [str(price)] of the stored value, never
    a number.  For a stored fixed-point value with two decimal places
    that text reads back as exactly the same value, and a price stored as
    ["599.99"] is written as ["599.99"]. *)
Theorem price_written_as_decimal_string (isoformat : datetime -> string)
    (s : Store) (n : nat) :
  (forall request r n',
     ProductSearchView_get isoformat request s n = (inr r, n') ->
     status r = 200 ->
     exists c lo hi js,
       parsed_category_id request = Some c
       /\ parsed_price "min_price" request = Some lo
       /\ parsed_price "max_price" request = Some hi
       /\ jget "products" (body r) = Some (JList js)
       /\ Forall2
            (fun o j =>
               jget "price" j
               = Some (JStr (Decimal_str (Product.price (row o)))))
            (search_results s c lo hi) js)
  /\ (forall request a r n',
        ProductDetailView_get isoformat request a s n = (inr r, n') ->
        status r = 200 ->
        exists p j,
          p ∈ products s
          /\ path_id a = Some (Product.id p)
          /\ jget "product" (body r) = Some j
          /\ jget "price" j = Some (JStr (Decimal_str (Product.price p))))
  /\ (forall sign coeff,
        Decimal_of_str (Decimal_str (Finite sign coeff (-2)))
        = Some (Finite sign coeff (-2)))
  /\ Decimal_of_str "599.99" = Some (of_cents 59999)
  /\ Decimal_str (of_cents 59999) = "599.99".
Proof.
  split; [|split; [|split; [|split]]].
  - intros request r n'. apply search_view_prices.
  - intros request a r n'. apply detail_view_prices.
  - apply fixed_point_round_trip.
  - reflexivity.
  - reflexivity.
Qed.

Example smartphone_price_in_search :
  exists r js j,
    ProductSearchView_get Scenario.isoformat
      (Scenario.request [("category_id", "1"); ("min_price", "500");
                         ("max_price", "600")]) Scenario.store 0%nat
    = (inr r, 1%nat)
    /\ jget "products" (body r) = Some (JList js)
    /\ js = [j]
    /\ jget "price" j = Some (JStr "599.99").
Proof. eexists _, _, _. repeat split. Qed.

(** * Further properties of the code *)

(** ** The order on prices *)

Lemma cmp_scaled (e : Z) (s1 s2 : bool) (c1 c2 : N) (e1 e2 : Z) :
  e <= e1 -> e <= e2 ->
  cmp (Finite s1 c1 e1) (Finite s2 c2 e2)
  = (scaled e (Finite s1 c1 e1) ?= scaled e (Finite s2 c2 e2)).
Proof.
  intros H1 H2. unfold cmp, scaled.
  set (m := Z.min e1 e2).
  assert (Hm1 : 0 <= e1 - m) by lia. assert (Hm2 : 0 <= e2 - m) by lia.
  assert (Hme : 0 <= m - e) by lia.
  replace (e1 - e) with ((e1 - m) + (m - e)) by lia.
  replace (e2 - e) with ((e2 - m) + (m - e)) by lia.
  rewrite !Z.pow_add_r, !Z.mul_assoc by done.
  assert (Hp : 0 < 10 ^ (m - e)) by (by apply Z.pow_pos_nonneg).
  set (p := 10 ^ (m - e)) in *.
  set (x := signed s1 c1 * 10 ^ (e1 - m)).
  set (y := signed s2 c2 * 10 ^ (e2 - m)).
  destruct (Z.compare_spec x y), (Z.compare_spec (x * p) (y * p));
    try reflexivity; nia.
Qed.

Lemma le_finite (e : Z) (s1 s2 : bool) (c1 c2 : N) (e1 e2 : Z) :
  e <= e1 -> e <= e2 ->
  le (Finite s1 c1 e1) (Finite s2 c2 e2) = true
  <-> scaled e (Finite s1 c1 e1) <= scaled e (Finite s2 c2 e2).
Proof.
  intros H1 H2. unfold le. rewrite (cmp_scaled e) by done. simpl.
  rewrite <- Z.compare_le_iff.
  destruct (_ ?= _); split; congruence.
Qed.

Lemma le_trans (a b c : Decimal) :
  le a b = true -> le b c = true -> le a c = true.
Proof.
  destruct a as [s1 c1 e1|s1|], b as [s2 c2 e2|s2|], c as [s3 c3 e3|s3|];
    try (unfold le; simpl; done).
  1:{ set (e := Z.min e1 (Z.min e2 e3)).
      rewrite (le_finite e), (le_finite e), (le_finite e) by lia. lia. }
  all: unfold le; cbn [is_nan orb negb andb cmp isinfinity];
    repeat match goal with s : bool |- _ => destruct s end;
    cbn; intros; congruence.
Qed.

Lemma gt_not_le (a b : Decimal) : gt a b = Some true -> le a b = false.
Proof.
  unfold gt, le. destruct (is_nan a || is_nan b); [done|]. simpl.
  by destruct (cmp a b).
Qed.

(** ** Query sets without a join *)

Lemma order_by_terms_perm (ts : list OrderTerm) (l : list ProductObj) :
  foldr order_by_term l ts ≡ₚ l.
Proof.
  induction ts as [|[] ts IH]; simpl; [done|].
  by rewrite sort_desc_perm.
Qed.

Lemma select_plain_perm (s : Store) (qs : QuerySet) :
  select_related_category qs = false ->
  row <$> select s qs
  ≡ₚ List.filter (fun p => forallb (matches p) (lookups qs)) (products s).
Proof.
  intros Hplain. unfold select. rewrite Hplain, order_by_terms_perm.
  rewrite <- list_fmap_compose. by rewrite list_fmap_id.
Qed.

Lemma select_plain_cache (s : Store) (qs : QuerySet) :
  select_related_category qs = false ->
  Forall (fun o => category_cache o = None) (select s qs).
Proof.
  intros Hplain. unfold select. rewrite Hplain, order_by_terms_perm.
  apply Forall_fmap, Forall_forall. done.
Qed.

Lemma select_lookups_ext (s : Store) (q1 q2 : QuerySet) :
  (forall p, forallb (matches p) (lookups q1)
             = forallb (matches p) (lookups q2)) ->
  select_related_category q1 = select_related_category q2 ->
  ordering q1 = ordering q2 ->
  select s q1 = select s q2.
Proof.
  intros Hl Hr Ho. unfold select. rewrite Hr, Ho.
  by rewrite (filter_ext _ _ Hl).
Qed.

Lemma matches_plus (p : Product.t) (l : Lookup) (qs : QuerySet) :
  forallb (matches p) (lookups (plus_lookup l qs))
  = forallb (matches p) (lookups qs) && matches p l.
Proof.
  unfold plus_lookup. cbn [lookups]. rewrite forallb_app.
  cbn [forallb]. by rewrite andb_true_r.
Qed.

(** X1: Chained filters are a conjunction: the order in which
    [active_products], [by_category] and [by_price_range] are applied
    does not change the rows selected, and applying one twice changes
    nothing. *)
Theorem filters_commute (s : Store) (qs : QuerySet) (c : Z)
    (lo hi : Decimal) :
  select s (ProductQuerySet.by_category
              (ProductQuerySet.active_products qs) c)
  = select s (ProductQuerySet.active_products
                (ProductQuerySet.by_category qs c))
  /\ select s (ProductQuerySet.by_price_range
                 (ProductQuerySet.active_products qs) lo hi)
     = select s (ProductQuerySet.active_products
                   (ProductQuerySet.by_price_range qs lo hi))
  /\ select s (ProductQuerySet.by_price_range
                 (ProductQuerySet.by_category qs c) lo hi)
     = select s (ProductQuerySet.by_category
                   (ProductQuerySet.by_price_range qs lo hi) c)
  /\ select s (ProductQuerySet.active_products
                 (ProductQuerySet.active_products qs))
     = select s (ProductQuerySet.active_products qs).
Proof.
  unfold ProductQuerySet.by_category, ProductQuerySet.active_products,
    ProductQuerySet.by_price_range.
  repeat split; apply select_lookups_ext; try reflexivity;
    intros p; rewrite !matches_plus;
    repeat match goal with |- context [matches p ?l] =>
      destruct (matches p l) end;
    destruct (forallb (matches p) (lookups qs)); reflexivity.
Qed.

Lemma active_products_rows (s : Store) :
  row <$> select s ProductManager.active_products
  ≡ₚ List.filter Product.is_active (products s)
  /\ StronglySorted (newer_or_equal created)
       (select s ProductManager.active_products)
  /\ Forall (fun o => category_cache o = None)
       (select s ProductManager.active_products).
Proof.
  split; [|split].
  - rewrite select_plain_perm by done. simpl.
    erewrite filter_ext; [done|]. intros p. simpl.
    rewrite andb_true_r. by destruct (Product.is_active p).
  - unfold select. simpl. apply sort_desc_sorted.
  - by apply select_plain_cache.
Qed.

(** X2: [Product.objects.active_products()] selects each active product once
    and no other, newest first ([Meta.ordering]), and does not load the
    categories. *)
Theorem active_products_listing (s : Store) :
  row <$> select s ProductManager.active_products
  ≡ₚ List.filter Product.is_active (products s)
  /\ StronglySorted (newer_or_equal created)
       (select s ProductManager.active_products)
  /\ Forall (fun o => category_cache o = None)
       (select s ProductManager.active_products).
Proof. exact (active_products_rows s). Qed.

(** X3: [by_category] alone does not look at [is_active]: it selects every
    product of the category, inactive ones included, and nothing else. *)
Theorem by_category_keeps_inactive (s : Store) (c : Z) (p : Product.t) :
  p ∈ row <$> select s
                (ProductQuerySet.by_category ProductManager.get_queryset c)
  <-> p ∈ products s /\ Product.category_id p = c.
Proof.
  rewrite select_plain_perm by done.
  rewrite list_elem_of_In, filter_In, <- list_elem_of_In. simpl.
  rewrite andb_true_r, Z.eqb_eq. done.
Qed.

(** X4: [by_price_range] keeps both bounds: for amounts in cents a product is
    selected exactly when [lo <= price <= hi]. *)
Theorem by_price_range_inclusive (s : Store) (lo hi x : Z) (p : Product.t) :
  Product.price p = of_cents x ->
  p ∈ row <$> select s
                (ProductQuerySet.by_price_range ProductManager.get_queryset
                   (of_cents lo) (of_cents hi))
  <-> p ∈ products s /\ lo <= x <= hi.
Proof.
  intros Hx. rewrite select_plain_perm by done.
  rewrite list_elem_of_In, filter_In, <- list_elem_of_In. simpl.
  rewrite Hx, !le_of_cents, andb_true_r, andb_true_iff, !Z.leb_le. done.
Qed.

Lemma by_price_range_inclusive_witness :
  Product.price Scenario.phone = of_cents 59999
  /\ (Scenario.phone
      ∈ row <$> select Scenario.store
                  (ProductQuerySet.by_price_range ProductManager.get_queryset
                     (of_cents 59999) (of_cents 59999))
      <-> Scenario.phone ∈ products Scenario.store
          /\ 59999 <= 59999 <= 59999).
Proof.
  split; [reflexivity|].
  apply (by_price_range_inclusive Scenario.store 59999 59999 59999
           Scenario.phone eq_refl).
Defined.

(** X5: A range whose minimum is above its maximum selects nothing: for
    bounds that fit the price column, [by_price_range] on all products and
    the search with these bounds, whatever the category, are empty. *)
Theorem inverted_range_selects_nothing (s : Store) (c : option Z)
    (lo hi : Decimal) :
  storable c (Some lo) (Some hi) = true ->
  gt lo hi = Some true ->
  select s
    (ProductQuerySet.by_price_range ProductManager.get_queryset lo hi) = []
  /\ search_results s c (Some lo) (Some hi) = [].
Proof.
  intros _ Hgt. apply gt_not_le in Hgt. split.
  - assert (Hnone : List.filter
              (fun p => forallb (matches p)
                 (lookups (ProductQuerySet.by_price_range
                             ProductManager.get_queryset lo hi)))
              (products s) = []).
    { induction (products s) as [|p l IH]; [done|]. simpl in *.
      destruct (le lo (Product.price p)) eqn:H1,
        (le (Product.price p) hi) eqn:H2;
        rewrite ?andb_false_r; try exact IH.
      by rewrite (le_trans _ _ _ H1 H2) in Hgt. }
    unfold select. rewrite Hnone.
    apply Permutation_nil_r. by rewrite order_by_terms_perm.
  - destruct (search_results s c (Some lo) (Some hi)) as [|o l] eqn:Hres;
      [done|].
    assert (Ho : o ∈ search_results s c (Some lo) (Some hi))
      by (rewrite Hres; left).
    apply elem_of_search_results in Ho as (_ & Hhit & _).
    rewrite search_hit_eq in Hhit. simpl in Hhit.
    apply andb_true_iff in Hhit as [_ Hprice].
    apply andb_true_iff in Hprice as [H1 H2].
    by rewrite (le_trans _ _ _ H1 H2) in Hgt.
Qed.

Lemma inverted_range_selects_nothing_witness :
  storable (Some 1) (Some (of_cents 10000)) (Some (of_cents 5000)) = true
  /\ gt (of_cents 10000) (of_cents 5000) = Some true
  /\ select Scenario.store
       (ProductQuerySet.by_price_range ProductManager.get_queryset
          (of_cents 10000) (of_cents 5000)) = []
  /\ search_results Scenario.store (Some 1) (Some (of_cents 10000))
       (Some (of_cents 5000)) = [].
Proof.
  split; [reflexivity|]. split; [reflexivity|].
  by apply (inverted_range_selects_nothing Scenario.store (Some 1)).
Defined.

(** ** More on the search *)

Lemma loaded_rows (s : Store) (l : list Product.t) :
  Forall (fun p => is_Some (find_category s (Product.category_id p))) l ->
  row <$> omap (loaded s) l = l.
Proof.
  induction 1 as [|p l [c Hc] _ IH]; [done|].
  change (omap ?f (p :: l))
    with (match f p with Some y => y :: omap f l | None => omap f l end).
  unfold loaded at 1. rewrite Hc. simpl. f_equal. exact IH.
Qed.

Lemma filter_ids_NoDup (f : Product.t -> bool) (l : list Product.t) :
  NoDup (Product.id <$> l) -> NoDup (Product.id <$> List.filter f l).
Proof.
  induction l as [|p l IH]; [done|].
  rewrite fmap_cons. intros [Hp Hl]%NoDup_cons.
  simpl. destruct (f p); [|by apply IH].
  rewrite fmap_cons. apply NoDup_cons. split; [|by apply IH].
  intros Hin. apply Hp. apply list_elem_of_fmap in Hin as (q & -> & Hq).
  apply list_elem_of_fmap_2.
  apply list_elem_of_In, filter_In in Hq as [Hq _].
  by apply list_elem_of_In.
Qed.

Lemma search_rows_once (s : Store) (c : option Z)
    (lo hi : option Decimal) :
  store_ok s = true ->
  row <$> search_results s c lo hi
  ≡ₚ List.filter (search_hit c lo hi) (products s)
  /\ length (search_results s c lo hi)
     = length (List.filter (search_hit c lo hi) (products s))
  /\ NoDup (Product.id <$> (row <$> search_results s c lo hi)).
Proof.
  intros Hok.
  assert (Hperm : row <$> search_results s c lo hi
                  ≡ₚ List.filter (search_hit c lo hi) (products s)).
  { rewrite search_results_eq, sort_desc_perm. rewrite loaded_rows; [done|].
    apply Forall_forall. intros p Hp.
    apply list_elem_of_In, filter_In in Hp as [Hp _].
    apply (store_ok_category s p Hok). by apply list_elem_of_In. }
  split; [done|]. split.
  - rewrite <- (length_fmap row). by rewrite Hperm.
  - rewrite Hperm. by apply filter_ids_NoDup, store_ok_ids.
Qed.

(** X6: Without pagination: under the key constraints of the store, for
    filter values the store accepts and prices that fit the column, a
    search returns every matching product exactly once, so the result is
    a rearrangement of the matching rows and has as many elements. *)
Theorem search_returns_each_match_once (s : Store) (c : option Z)
    (lo hi : option Decimal) :
  store_ok s = true ->
  prices_fit s = true ->
  storable c lo hi = true ->
  row <$> search_results s c lo hi
  ≡ₚ List.filter (search_hit c lo hi) (products s)
  /\ length (search_results s c lo hi)
     = length (List.filter (search_hit c lo hi) (products s))
  /\ NoDup (Product.id <$> (row <$> search_results s c lo hi)).
Proof. intros Hok _ _. exact (search_rows_once s c lo hi Hok). Qed.

Lemma search_returns_each_match_once_witness :
  store_ok Scenario.store = true
  /\ prices_fit Scenario.store = true
  /\ storable (Some 1) None None = true
  /\ row <$> search_results Scenario.store (Some 1) None None
     ≡ₚ List.filter (search_hit (Some 1) None None)
          (products Scenario.store)
  /\ length (search_results Scenario.store (Some 1) None None)
     = length (List.filter (search_hit (Some 1) None None)
                 (products Scenario.store))
  /\ NoDup (Product.id
              <$> (row <$> search_results Scenario.store (Some 1) None None)).
Proof.
  split; [reflexivity|]. split; [reflexivity|]. split; [reflexivity|].
  by apply (search_returns_each_match_once Scenario.store).
Defined.

Section sort_filter.
Context {A : Type} (key : A -> Z) (f : A -> bool).

Lemma insert_desc_front (x : A) (l : list A) :
  Forall (fun y => key y <= key x) l -> insert_desc key x l = x :: l.
Proof.
  destruct 1 as [|y l Hy _]; [done|]. simpl.
  by destruct (Z.leb_spec (key y) (key x)); [|lia].
Qed.

Lemma insert_desc_filter (x : A) (l : list A) :
  StronglySorted (newer_or_equal key) l ->
  List.filter f (insert_desc key x l)
  = if f x then insert_desc key x (List.filter f l) else List.filter f l.
Proof.
  induction 1 as [|y l Hl IH Hy]; simpl; [by destruct (f x)|].
  destruct (Z.leb_spec (key y) (key x)) as [Hle|Hlt]; simpl.
  - destruct (f x) eqn:Hx; [|done]. symmetry.
    apply insert_desc_front.
    assert (Hall : Forall (fun z => key z <= key x) (y :: l)).
    { constructor; [done|]. eapply Forall_impl; [exact Hy|].
      unfold newer_or_equal. intros z Hz. simpl in Hz. lia. }
    apply Forall_forall. intros z Hz.
    apply (proj1 (Forall_forall _ _) Hall).
    apply list_elem_of_In. apply list_elem_of_In in Hz.
    change (In z (List.filter f (y :: l))) in Hz.
    by apply filter_In in Hz as [Hz _].
  - rewrite IH. destruct (f y) eqn:Hfy, (f x) eqn:Hx; simpl; try done.
    by destruct (Z.leb_spec (key y) (key x)); [lia|].
Qed.

Lemma sort_desc_filter (l : list A) :
  List.filter f (sort_desc key l) = sort_desc key (List.filter f l).
Proof.
  induction l as [|x l IH]; [done|].
  change (sort_desc key (x :: l)) with (insert_desc key x (sort_desc key l)).
  rewrite insert_desc_filter by apply sort_desc_sorted.
  rewrite IH. simpl. by destruct (f x).
Qed.

End sort_filter.

Lemma loaded_row (s : Store) (p : Product.t) (o : ProductObj) :
  loaded s p = Some o -> row o = p.
Proof.
  unfold loaded. destruct (find_category s (Product.category_id p)); [|done].
  by intros [= <-].
Qed.

Lemma omap_loaded_cons (s : Store) (p : Product.t) (l : list Product.t) :
  omap (loaded s) (p :: l)
  = match loaded s p with
    | Some o => o :: omap (loaded s) l
    | None => omap (loaded s) l
    end.
Proof. reflexivity. Qed.

Lemma omap_loaded_filter (s : Store) (f : Product.t -> bool)
    (l : list Product.t) :
  omap (loaded s) (List.filter f l)
  = List.filter (fun o => f (row o)) (omap (loaded s) l).
Proof.
  induction l as [|p l IH]; [done|].
  rewrite omap_loaded_cons. cbn [List.filter].
  destruct (loaded s p) as [o|] eqn:Ho.
  - cbn [List.filter]. rewrite (loaded_row s p o Ho).
    destruct (f p); [|done]. by rewrite omap_loaded_cons, Ho, IH.
  - destruct (f p); [|done]. by rewrite omap_loaded_cons, Ho.
Qed.

(** X7: Filtering never reorders: when no two products were created at
    the same instant, the prices fit the column and the store accepts the
    filter values, the result of a filtered search is the unfiltered
    result with the products that fail the filters left out, the others
    staying in the same relative order. *)
Theorem filtered_search_keeps_order (s : Store) (c : option Z)
    (lo hi : option Decimal) :
  NoDup (Product.created_at <$> products s) ->
  prices_fit s = true ->
  storable c lo hi = true ->
  search_results s c lo hi
  = List.filter (fun o => search_hit c lo hi (row o))
      (search_results s None None None).
Proof.
  intros _ _ _.
  rewrite !search_results_eq, sort_desc_filter, <- omap_loaded_filter.
  do 2 f_equal.
  induction (products s) as [|p l IH]; [done|]. simpl.
  destruct (search_hit c lo hi p) eqn:Hp.
  - assert (Hactive : search_hit None None None p = true).
    { rewrite search_hit_eq in *. simpl.
      by destruct (Product.is_active p). }
    rewrite Hactive. simpl. by rewrite Hp, IH.
  - destruct (search_hit None None None p); simpl; by rewrite ?Hp.
Qed.

Lemma filtered_search_keeps_order_witness :
  NoDup (Product.created_at <$> products Scenario.store)
  /\ prices_fit Scenario.store = true
  /\ storable (Some 1) (Some (of_cents 50000)) (Some (of_cents 150000))
     = true
  /\ search_results Scenario.store (Some 1) (Some (of_cents 50000))
       (Some (of_cents 150000))
     = List.filter
         (fun o =>
            search_hit (Some 1) (Some (of_cents 50000))
              (Some (of_cents 150000)) (row o))
         (search_results Scenario.store None None None).
Proof.
  assert (Hnd : NoDup (Product.created_at <$> products Scenario.store))
    by (apply (bool_decide_unpack _); vm_compute; reflexivity).
  split; [exact Hnd|]. split; [reflexivity|]. split; [reflexivity|].
  exact (filtered_search_keeps_order Scenario.store (Some 1)
           (Some (of_cents 50000)) (Some (of_cents 150000))
           Hnd eq_refl eq_refl).
Defined.

(** X8: Narrowing the price range narrows the result: for bounds and
    prices that fit the price column, every product found between [lo']
    and [hi'] is found between [lo] and [hi] when [lo <= lo'] and
    [hi' <= hi]. *)
Theorem narrower_range_finds_less (s : Store) (c : option Z)
    (lo lo' hi' hi : Decimal) (o : ProductObj) :
  prices_fit s = true ->
  storable c (Some lo) (Some hi) = true ->
  storable c (Some lo') (Some hi') = true ->
  le lo lo' = true ->
  le hi' hi = true ->
  o ∈ search_results s c (Some lo') (Some hi') ->
  o ∈ search_results s c (Some lo) (Some hi).
Proof.
  intros _ _ _ Hlo Hhi. rewrite !elem_of_search_results, !search_hit_eq.
  intros (Hp & Hhit & Hcat). split; [done|]. split; [|done].
  apply andb_true_iff in Hhit as [Hrest Hprice].
  apply andb_true_iff. split; [done|]. simpl in *.
  apply andb_true_iff in Hprice as [H1 H2]. apply andb_true_iff.
  split; eapply le_trans; eauto.
Qed.

Lemma narrower_range_finds_less_witness :
  exists o,
    prices_fit Scenario.store = true
    /\ storable None (Some (of_cents 0)) (Some (of_cents 200000)) = true
    /\ storable None (Some (of_cents 50000)) (Some (of_cents 60000)) = true
    /\ le (of_cents 0) (of_cents 50000) = true
    /\ le (of_cents 60000) (of_cents 200000) = true
    /\ o ∈ search_results Scenario.store None
             (Some (of_cents 50000)) (Some (of_cents 60000))
    /\ o ∈ search_results Scenario.store None
             (Some (of_cents 0)) (Some (of_cents 200000)).
Proof.
  eexists.
  assert (Ho : {| row := Scenario.phone;
                  category_cache := Some Scenario.electronics |}
               ∈ search_results Scenario.store None
                   (Some (of_cents 50000)) (Some (of_cents 60000)))
    by (apply (bool_decide_unpack _); vm_compute; reflexivity).
  split; [reflexivity|]. split; [reflexivity|]. split; [reflexivity|].
  split; [reflexivity|]. split; [reflexivity|]. split; [exact Ho|].
  exact (narrower_range_finds_less Scenario.store None (of_cents 0)
           (of_cents 50000) (of_cents 60000) (of_cents 200000) _
           eq_refl eq_refl eq_refl eq_refl eq_refl Ho).
Defined.

(** ** Why the search joins the categories *)

Lemma search_product_data_lazy (isoformat : datetime -> string)
    (o : ProductObj) (c : Category.t) (s : Store) (n : nat) :
  category_cache o = None ->
  find_category s (Product.category_id (row o)) = Some c ->
  search_product_data isoformat o s n
  = (inr (search_product_json isoformat (row o) c), S n).
Proof.
  intros Hnone Hc. unfold search_product_data, category.
  unfold mbind, DB_bind, mret, DB_ret, query. rewrite Hnone, Hc. done.
Qed.

Lemma for_each_lazy (isoformat : datetime -> string)
    (l : list ProductObj) (s : Store) (n : nat) :
  Forall (fun o => category_cache o = None
                   /\ is_Some (find_category s
                                 (Product.category_id (row o)))) l ->
  snd (for_each (search_product_data isoformat) l s n) = (n + length l)%nat.
Proof.
  intros Hl. revert n.
  induction Hl as [|o l [Hnone [c Hc]] _ IH]; intros n; simpl; [lia|].
  unfold mbind, DB_bind.
  rewrite (search_product_data_lazy isoformat o c s n Hnone Hc).
  specialize (IH (S n)).
  destruct (for_each (search_product_data isoformat) l s (S n))
    as [[e|js] n']; simpl in *; lia.
Qed.

(** X9: What [select_related] saves: serialising the products of a query that
    did not load the categories, such as [active_products()], sends one
    query for the list and one more for each product. *)
Theorem lazy_categories_cost_one_query_each
    (isoformat : datetime -> string) (s : Store) (n : nat) :
  store_ok s = true ->
  snd ((products ← iterate ProductManager.active_products;
        for_each (search_product_data isoformat) products) s n)
  = (n + 1 + length (List.filter Product.is_active (products s)))%nat.
Proof.
  intros Hok. unfold iterate, query, mbind, DB_bind.
  destruct (active_products_rows s) as (Hperm & _ & Hcache).
  rewrite for_each_lazy.
  - rewrite <- Hperm, length_fmap. lia.
  - apply Forall_forall. intros o Ho. split.
    + by apply (proj1 (Forall_forall _ _) Hcache).
    + apply (store_ok_category s _ Hok).
      assert (Hrow : row o ∈ row <$> select s ProductManager.active_products)
        by (by apply list_elem_of_fmap_2).
      rewrite Hperm in Hrow.
      apply list_elem_of_In, filter_In in Hrow as [Hrow _].
      by apply list_elem_of_In.
Qed.

Lemma lazy_categories_cost_one_query_each_witness :
  store_ok Scenario.store = true
  /\ snd ((products ← iterate ProductManager.active_products;
           for_each (search_product_data Scenario.isoformat) products)
            Scenario.store 0%nat)
     = (0 + 1 + length (List.filter Product.is_active
                          (products Scenario.store)))%nat.
Proof.
  split; [reflexivity|].
  by apply (lazy_categories_cost_one_query_each Scenario.isoformat
              Scenario.store 0%nat).
Defined.

(** ** Indexes and query shapes *)

(** X10: Every query [search_products] builds is served by a declared index:
    its lookups, in the order they are applied, name the first columns of
    one of [Product.Meta.indexes].  With a category filter the index is
    exactly the filtered columns followed by the sort column; with a
    price range and no category it is exactly the filtered columns. *)
Theorem search_served_by_an_index (c : option Z) (lo hi : option Decimal) :
  exists index,
    index ∈ Product_Meta_indexes
    /\ (lookup_field <$> lookups (ProductManager.search_products c lo hi))
       `prefix_of` Index.fields index
    /\ (truthy_int c = true ->
        Index.fields index
        = query_fields (ProductManager.search_products c lo hi))
    /\ (truthy_int c = false -> is_Some lo -> is_Some hi ->
        Index.fields index
        = lookup_field <$> lookups (ProductManager.search_products c lo hi)).
Proof.
  unfold query_fields, ProductManager.search_products,
    ProductQuerySet.search_products.
  destruct c as [cid|]; [destruct (Z.eqb_spec cid 0) as [->|Hnz]|];
    destruct lo as [a|], hi as [b|]; simpl;
    try rewrite (proj2 (Z.eqb_neq cid 0) Hnz); simpl.
  all: first
    [ exists (Index.Build ["is_active"; "category"; "-created_at"]
                "idx_product_category_sort");
      split; [apply list_elem_of_In; simpl; tauto|];
      split; [by eexists|]; split; [done|];
      intros Ht [? Hlo] [? Hhi]; done
    | exists (Index.Build ["is_active"; "category"; "price"; "-created_at"]
                "idx_product_full_search");
      split; [apply list_elem_of_In; simpl; tauto|];
      split; [by eexists|]; split; [done|];
      intros Ht [? Hlo] [? Hhi]; done
    | exists (Index.Build ["is_active"; "price"] "idx_product_price_range");
      split; [apply list_elem_of_In; simpl; tauto|];
      split; [by eexists|]; split; done ].
Qed.

(** ** Reading integers *)

Lemma int_digits_step (c : ascii) (l : list ascii) (b : bool) (acc : N) :
  is_digit c = true ->
  int_digits (c :: l) b acc = int_digits l true (10 * acc + digit_val c)%N.
Proof. intros Hc. cbn [int_digits]. by rewrite Hc. Qed.

Lemma int_digits_acc (d : Decimal.uint) (acc : positive) :
  int_digits (chars_of_uint d) true (Npos acc)
  = Some (Npos (Pos.of_uint_acc d acc)).
Proof.
  revert acc. induction d; intros acc; [done|..];
    cbn [chars_of_uint Pos.of_uint_acc];
    rewrite int_digits_step by reflexivity;
    rewrite <- IHd; f_equal;
    match goal with |- context [digit_val ?c] =>
      let v := eval vm_compute in (digit_val c) in
      change (digit_val c) with v
    end; lia.
Qed.

Lemma int_digits_uint (d : Decimal.uint) (b : bool) :
  d <> Decimal.Nil \/ b = true ->
  int_digits (chars_of_uint d) b 0 = Some (N.of_uint d).
Proof.
  revert b. induction d; intros b Hb;
    [by destruct Hb as [?| ->]|..];
    cbn [chars_of_uint]; rewrite int_digits_step by reflexivity.
  - apply IHd. by right.
  - apply (int_digits_acc d 1).
  - apply (int_digits_acc d 2).
  - apply (int_digits_acc d 3).
  - apply (int_digits_acc d 4).
  - apply (int_digits_acc d 5).
  - apply (int_digits_acc d 6).
  - apply (int_digits_acc d 7).
  - apply (int_digits_acc d 8).
  - apply (int_digits_acc d 9).
Qed.

Lemma digits_uint (l : list ascii) :
  Forall (fun c => is_digit c = true) l ->
  exists d, l = chars_of_uint d.
Proof.
  induction 1 as [|c l Hc _ [d ->]]; [by exists Decimal.Nil|].
  destruct c as [[] [] [] [] [] [] [] []]; try discriminate Hc;
    first [ by exists (Decimal.D0 d) | by exists (Decimal.D1 d)
          | by exists (Decimal.D2 d) | by exists (Decimal.D3 d)
          | by exists (Decimal.D4 d) | by exists (Decimal.D5 d)
          | by exists (Decimal.D6 d) | by exists (Decimal.D7 d)
          | by exists (Decimal.D8 d) | by exists (Decimal.D9 d) ].
Qed.

Lemma digit_not_c_space (c : ascii) :
  is_digit c = true -> is_c_space c = false.
Proof.
  destruct c as [[] [] [] [] [] [] [] []]; vm_compute; congruence.
Qed.

Lemma skip_spaces_digits (l : list ascii) :
  Forall (fun c => is_digit c = true) l -> skip_spaces l = l.
Proof.
  intros Hl.
  assert (Hskip : forall k, Forall (fun c => is_digit c = true) k ->
                            lskip k = k).
  { intros k [|c k' Hc _]; simpl; [done|].
    by rewrite (digit_not_c_space c Hc). }
  unfold skip_spaces. rewrite (Hskip l Hl).
  rewrite Hskip; [apply rev_involutive|].
  apply Forall_forall. intros c Hc. apply (proj1 (Forall_forall _ _) Hl).
  apply list_elem_of_In. apply list_elem_of_In, in_rev in Hc. done.
Qed.

Lemma int_of_digits (l : list ascii) :
  l <> [] ->
  Forall (fun c => is_digit c = true) l ->
  exists n, int (text l) = Some (Z.of_N n) /\ digits_N l = Some n.
Proof.
  intros Hne Hl. destruct (digits_uint l Hl) as [d ->].
  exists (N.of_uint d). split.
  - unfold int, text, chars. rewrite list_ascii_of_string_of_list_ascii.
    rewrite (skip_spaces_digits _ Hl).
    assert (Hval : int_digits (chars_of_uint d) false 0 = Some (N.of_uint d)).
    { apply int_digits_uint. left. by intros ->. }
    destruct (chars_of_uint d) as [|c l] eqn:Hd; [done|].
    apply Forall_cons in Hl as [Hc _].
    apply digit_char in Hc as (_ & _ & Hminus & Hplus).
    destruct c as [[] [] [] [] [] [] [] []]; try congruence;
      by rewrite Hval.
  - unfold digits_N. by rewrite uint_of_chars_of_uint.
Qed.

Lemma digit_val_le (c : ascii) : is_digit c = true -> (digit_val c <= 9)%N.
Proof.
  destruct c as [[] [] [] [] [] [] [] []]; vm_compute; congruence.
Qed.

Lemma int_digits_bound (l : list ascii) (b : bool) (acc n : N) :
  int_digits l b acc = Some n ->
  (n < (acc + 1) * 10 ^ N.of_nat (length l))%N.
Proof.
  revert b acc. induction l as [|c l IH]; intros b acc;
    cbn [int_digits length].
  - destruct b; [|done]. intros [= <-]. simpl. lia.
  - rewrite Nat2N.inj_succ, N.pow_succ_r'.
    destruct (is_digit c) eqn:Hc.
    + intros Hn%IH. pose proof (digit_val_le c Hc). nia.
    + destruct (Ascii.eqb c "_"); [|done].
      destruct b; [|done]. intros Hn%IH. nia.
Qed.

Lemma lskip_length (l : list ascii) : (length (lskip l) <= length l)%nat.
Proof.
  induction l as [|c l IH]; simpl; [lia|].
  destruct (is_c_space c); simpl; lia.
Qed.

Lemma skip_spaces_length (l : list ascii) :
  (length (skip_spaces l) <= length l)%nat.
Proof.
  unfold skip_spaces. rewrite length_rev.
  pose proof (lskip_length (rev (lskip l))) as H1.
  rewrite length_rev in H1. pose proof (lskip_length l). lia.
Qed.

(** An integer written in plain text fits 64 bits. *)
Lemma int_plain_fits (t : string) (z : Z) :
  plain_text t = true -> int t = Some z -> int64 z = true.
Proof.
  unfold plain_text. intros [Hlen%Nat.leb_le _]%andb_true_iff.
  pose proof (skip_spaces_length (chars t)) as Hskip.
  assert (Hbound : forall l n,
            (length l <= 18)%nat -> int_digits l false 0 = Some n ->
            (n < 10 ^ 18)%N).
  { intros l n Hl Hn%int_digits_bound.
    assert (10 ^ N.of_nat (length l) <= 10 ^ 18)%N
      by (apply N.pow_le_mono_r; lia).
    lia. }
  assert (Hz : int t = Some z -> - 10 ^ 18 < z < 10 ^ 18).
  { unfold int.
    destruct (skip_spaces (chars t)) as [|c l] eqn:Hl; [done|].
    assert (Hcases :
      (exists n, (n < 10 ^ 18)%N /\ (z = Z.of_N n \/ z = - Z.of_N n))
      -> - 10 ^ 18 < z < 10 ^ 18) by (intros (n & Hn & [-> | ->]); lia).
    simpl in Hskip.
    destruct c as [[] [] [] [] [] [] [] []];
      (destruct (int_digits _ false 0) as [n|] eqn:Hn; [|done]);
      intros [= <-]; apply Hcases; exists n;
      (split; [apply Hbound in Hn; [done|simpl; lia]|tauto]). }
  intros Hint%Hz. unfold int64. apply andb_true_iff.
  split; [apply Z.leb_le|apply Z.ltb_lt]; lia.
Qed.

Lemma isdigit_chars (t : string) :
  isdigit t = true ->
  chars t <> [] /\ Forall (fun c => is_digit c = true) (chars t).
Proof.
  unfold isdigit. intros [Ht Hd]%andb_true_iff. split.
  - by destruct t.
  - apply Forall_forall. intros c Hc.
    apply (proj1 (forallb_forall _ _) Hd). by apply list_elem_of_In.
Qed.

Lemma isdigit_int (t : string) :
  isdigit t = true -> exists z, int t = Some z /\ 0 <= z.
Proof.
  intros [Hne Hd]%isdigit_chars.
  destruct (int_of_digits (chars t) Hne Hd) as (n & Hint & _).
  exists (Z.of_N n). split; [|lia].
  unfold text, chars in Hint.
  by rewrite string_of_list_ascii_of_string in Hint.
Qed.

(** ** Routing (urls.py) *)

Lemma chars_app (a b : string) : chars (a ++ b) = chars a ++ chars b.
Proof. induction a as [|c a IH]; simpl; [done|]. by f_equal. Qed.

Lemma chars_text (l : list ascii) : chars (text l) = l.
Proof. apply list_ascii_of_string_of_list_ascii. Qed.

Lemma strip_prefix_app (p r : list ascii) : strip_prefix p (p ++ r) = Some r.
Proof.
  induction p as [|c p IH]; simpl; [done|]. by rewrite Ascii.eqb_refl.
Qed.

Lemma strip_prefix_inv (p l r : list ascii) :
  strip_prefix p l = Some r -> l = p ++ r.
Proof.
  revert l. induction p as [|c p IH]; intros [|d l]; simpl; try done.
  - by intros [= ->].
  - by intros [= ->].
  - destruct (Ascii.eqb_spec c d) as [->|]; [|done].
    intros Hp. by rewrite (IH l Hp).
Qed.

Lemma span_digits_app (ds r : list ascii) (c : ascii) :
  Forall (fun c => is_digit c = true) ds ->
  is_digit c = false ->
  span_digits (ds ++ c :: r) = (ds, c :: r).
Proof.
  intros Hds Hc. induction Hds as [|d ds Hd _ IH]; simpl.
  - by rewrite Hc.
  - by rewrite Hd, IH.
Qed.

Lemma span_digits_inv (l ds r : list ascii) :
  span_digits l = (ds, r) ->
  l = ds ++ r /\ Forall (fun c => is_digit c = true) ds.
Proof.
  revert ds r. induction l as [|c l IH]; intros ds r; simpl.
  - by intros [= <- <-].
  - destruct (is_digit c) eqn:Hc.
    + destruct (span_digits l) as [ds' r'].
      intros [= <- <-]. destruct (IH ds' r' eq_refl) as [-> Hds].
      split; [done|]. by constructor.
    + by intros [= <- <-].
Qed.

(** X11: The two routes: the search path resolves to the search view, and the
    detail path of any id resolves to the detail view with that id as
    [product_id]. *)
Theorem routes_resolve (n : N) :
  resolve "/api/products/search/" = Some (product_search, [])
  /\ resolve (detail_path n)
     = Some (product_detail, [("product_id", Z.of_N n)]).
Proof.
  split; [reflexivity|].
  pose proof (N_digits_length n) as Hlen.
  pose proof (chars_of_uint_digits (N.to_uint n)) as Hds.
  fold (N_digits n) in Hds.
  destruct (int_of_digits (N_digits n)) as (v & Hint & Hv);
    [by intros Hnil; rewrite Hnil in Hlen; simpl in Hlen; lia|done|].
  rewrite digits_N_digits in Hv. injection Hv as <-.
  unfold resolve, detail_path. rewrite !chars_app, chars_text.
  change (chars "/api/products/") with (chars "/" ++ chars "api/products/").
  rewrite <- app_assoc, strip_prefix_app.
  assert (Hsearch : strip_prefix (chars "api/products/search/")
            (chars "api/products/" ++ N_digits n ++ chars "/") = None).
  { destruct (N_digits n) as [|d ds] eqn:Hd; [simpl in Hlen; lia|].
    apply Forall_cons in Hds as [Hdigit _].
    destruct d as [[] [] [] [] [] [] [] []]; try discriminate Hdigit;
      reflexivity. }
  cbn [first_match urlpatterns match_route mbind option_bind].
  rewrite Hsearch. cbn [mbind option_bind].
  rewrite strip_prefix_app. cbn [mbind option_bind].
  change (chars "/") with ["/"%char].
  rewrite (span_digits_app (N_digits n) [] "/"%char Hds eq_refl).
  destruct (N_digits n) as [|d ds] eqn:Hd; [simpl in Hlen; lia|].
  rewrite Hint. reflexivity.
Qed.

Lemma resolve_inv (path : string) (v : View) (kwargs : list (string * Z)) :
  resolve path = Some (v, kwargs) ->
  (v = product_search /\ kwargs = [] /\ path = "/api/products/search/")
  \/ (v = product_detail
      /\ exists ds z,
           ds <> []
           /\ Forall (fun c => is_digit c = true) ds
           /\ chars path = chars "/api/products/" ++ ds ++ chars "/"
           /\ int (text ds) = Some z
           /\ 0 <= z
           /\ kwargs = [("product_id", z)]).
Proof.
  unfold resolve.
  destruct (strip_prefix (chars "/") (chars path)) as [rest|] eqn:Hroot;
    [|done].
  apply strip_prefix_inv in Hroot.
  cbn [first_match urlpatterns match_route mbind option_bind].
  destruct (strip_prefix (chars "api/products/search/") rest)
    as [[|c r]|] eqn:Hsearch; cbn [mbind option_bind].
  - intros [= <- <-]. left. split; [done|]. split; [done|].
    apply strip_prefix_inv in Hsearch. rewrite app_nil_r in Hsearch.
    subst rest. apply (f_equal text) in Hroot. unfold text, chars in Hroot.
    by rewrite string_of_list_ascii_of_string in Hroot.
  - intros Hdetail. exfalso. revert Hdetail.
    apply strip_prefix_inv in Hsearch. subst rest. by vm_compute.
  - destruct (strip_prefix (chars "api/products/") rest) as [r1|] eqn:Hp;
      cbn [mbind option_bind]; [|done].
    apply strip_prefix_inv in Hp.
    destruct (span_digits r1) as [[|d ds] r2] eqn:Hspan; [done|].
    apply span_digits_inv in Hspan as [-> Hds].
    destruct (int (text (d :: ds))) as [z|] eqn:Hint;
      cbn [mbind option_bind]; [|done].
    destruct (strip_prefix (chars "/") r2) as [[|c r3]|] eqn:Hslash;
      cbn [mbind option_bind]; [|done|done].
    apply strip_prefix_inv in Hslash. rewrite app_nil_r in Hslash.
    intros [= <- <-]. right. split; [done|]. exists (d :: ds), z.
    split; [done|]. split; [done|]. split; [by subst|].
    split; [done|]. split; [|done].
    destruct (int_of_digits (d :: ds)) as (n & Hn & _); [done|done|].
    rewrite Hn in Hint. injection Hint as <-. lia.
Qed.

(** ** More on the search view *)

Lemma search_outcome_params (isoformat : datetime -> string)
    (r1 r2 : HttpRequest) (s : Store) :
  same_params r1 r2 ->
  search_outcome isoformat r1 s = search_outcome isoformat r2 s.
Proof.
  intros (Hc & Hlo & Hhi).
  unfold search_outcome, parsed_category_id, parsed_price.
  by rewrite Hc, Hlo, Hhi.
Qed.

(** X12: The search view reads three parameters and nothing else of the
    request: two requests that agree on [category_id], [min_price] and
    [max_price], an empty value counting as a missing one, get the same
    response. *)
Theorem search_view_reads_three_params (isoformat : datetime -> string)
    (r1 r2 : HttpRequest) (s : Store) (n : nat) :
  same_params r1 r2 ->
  ProductSearchView_get isoformat r1 s n
  = ProductSearchView_get isoformat r2 s n.
Proof.
  intros Hsame. rewrite !ProductSearchView_get_run.
  by rewrite (search_outcome_params isoformat r1 r2 s Hsame).
Qed.

Lemma search_view_reads_three_params_witness :
  same_params
    (Scenario.request [("category_id", ""); ("page", "2");
                        ("min_price", "10")])
    (Scenario.request [("min_price", "10"); ("max_price", "")])
  /\ ProductSearchView_get Scenario.isoformat
       (Scenario.request [("category_id", ""); ("page", "2");
                           ("min_price", "10")]) Scenario.store 0%nat
     = ProductSearchView_get Scenario.isoformat
         (Scenario.request [("min_price", "10"); ("max_price", "")])
         Scenario.store 0%nat.
Proof.
  assert (Hsame : same_params
            (Scenario.request [("category_id", ""); ("page", "2");
                                ("min_price", "10")])
            (Scenario.request [("min_price", "10"); ("max_price", "")]))
    by (repeat split).
  split; [exact Hsame|].
  exact (search_view_reads_three_params Scenario.isoformat _ _
           Scenario.store 0%nat Hsame).
Defined.

Lemma cmp_antisym (a b : Decimal) : cmp b a = CompOpp (cmp a b).
Proof.
  destruct a as [s1 c1 e1|s1|], b as [s2 c2 e2|s2|]; unfold cmp;
    try apply Z.compare_antisym.
  rewrite (Z.min_comm e2 e1). apply Z.compare_antisym.
Qed.

Lemma parsed_price_accepted (key : string) (request : HttpRequest)
    (d : Decimal) :
  parsed_price key request = Some (Some d) ->
  is_nan d = false /\ lt d zero = Some false /\ le zero d = true
  /\ exists t, param key request = Some t /\ Decimal_of_str t = Some d.
Proof.
  intros Hd. pose proof (parsed_price_not_nan _ _ _ Hd) as Hnan.
  unfold parsed_price in Hd.
  destruct (param key request) as [t|]; [|done].
  destruct (Decimal_of_str t) as [d'|] eqn:Ht; [|done]. simpl in Hd.
  destruct (lt d' zero) as [[|]|] eqn:Hlt; simpl in Hd; try done.
  injection Hd as ->. repeat split; try done; [|by exists t].
  assert (Hcmp : cmp d zero <> Lt).
  { unfold lt in Hlt. rewrite Hnan in Hlt.
    change (is_nan zero) with false in Hlt. cbn [orb] in Hlt.
    destruct (cmp d zero); congruence. }
  unfold le. rewrite Hnan. change (is_nan zero) with false.
  cbn [orb negb andb]. rewrite (cmp_antisym d zero).
  by destruct (cmp d zero).
Qed.

(** X13: What [_get_price_range] lets through: it sends no query, and a bound
    it returns is the parsed text of the parameter, is not a NaN and is
    not below zero. *)
Theorem accepted_prices_are_sound (request : HttpRequest) (s : Store)
    (n n' : nat) (lo hi : option Decimal) :
  ProductSearchView__get_price_range request s n = (inr (lo, hi), n') ->
  n' = n
  /\ (forall d, lo = Some d ->
        is_nan d = false /\ lt d zero = Some false /\ le zero d = true
        /\ exists t, param "min_price" request = Some t
                     /\ Decimal_of_str t = Some d)
  /\ (forall d, hi = Some d ->
        is_nan d = false /\ lt d zero = Some false /\ le zero d = true
        /\ exists t, param "max_price" request = Some t
                     /\ Decimal_of_str t = Some d).
Proof.
  rewrite get_price_range_run.
  destruct (parsed_price "min_price" request) as [lo'|] eqn:Hlo; [|done].
  destruct (parsed_price "max_price" request) as [hi'|] eqn:Hhi; [|done].
  intros [= -> -> ->]. split; [done|].
  split; intros d ->; by apply parsed_price_accepted.
Qed.

Lemma accepted_prices_are_sound_witness :
  ProductSearchView__get_price_range
    (Scenario.request [("min_price", "0.50"); ("max_price", "Infinity")])
    Scenario.store 3%nat
  = (inr (Some (Finite false 50 (-2)), Some (Infinity false)), 3%nat)
  /\ is_nan (Infinity false) = false.
Proof.
  assert (Hrun : ProductSearchView__get_price_range
            (Scenario.request
               [("min_price", "0.50"); ("max_price", "Infinity")])
            Scenario.store 3%nat
          = (inr (Some (Finite false 50 (-2)), Some (Infinity false)),
             3%nat)) by reflexivity.
  split; [exact Hrun|].
  destruct (accepted_prices_are_sound _ _ _ _ _ _ Hrun)
    as (_ & _ & Hhi).
  by destruct (Hhi _ eq_refl) as [? _].
Defined.

(** X14: In a request whose parameters are plain text, a price that
    parses to a NaN is refused like text that does not parse: the
    comparison with zero fails inside the handler that reports an invalid
    amount, so the answer is 400, not a server error, and the store is not
    queried. *)
Theorem nan_price_rejected (isoformat : datetime -> string)
    (request : HttpRequest) (t : string) (d : Decimal) (s : Store)
    (n : nat) :
  plain_request request = true ->
  parsed_category_id request <> None ->
  param "min_price" request = Some t ->
  Decimal_of_str t = Some d ->
  is_nan d = true ->
  ProductSearchView_get isoformat request s n
  = (inr (failure
            "Invalid parameter: min_price must be a valid dollar amount"
            400), n).
Proof.
  intros _ Hc Ht Hd Hnan. rewrite ProductSearchView_get_run.
  unfold search_outcome.
  destruct (parsed_category_id request) as [c|]; [|done].
  assert (Hmin : parsed_price "min_price" request = None).
  { unfold parsed_price. rewrite Ht, Hd. cbn [mbind option_bind].
    unfold lt. by rewrite Hnan. }
  by rewrite Hmin.
Qed.

Lemma nan_price_rejected_witness :
  plain_request (Scenario.request [("min_price", "NaN")]) = true
  /\ parsed_category_id (Scenario.request [("min_price", "NaN")]) <> None
  /\ param "min_price" (Scenario.request [("min_price", "NaN")])
     = Some "NaN"
  /\ Decimal_of_str "NaN" = Some (NaN false false 0)
  /\ is_nan (NaN false false 0) = true
  /\ ProductSearchView_get Scenario.isoformat
       (Scenario.request [("min_price", "NaN")]) Scenario.store 0%nat
     = (inr (failure
               "Invalid parameter: min_price must be a valid dollar amount"
               400), 0%nat).
Proof.
  split; [reflexivity|].
  split; [done|]. split; [reflexivity|]. split; [reflexivity|].
  split; [reflexivity|].
  by apply (nan_price_rejected Scenario.isoformat _ "NaN"
              (NaN false false 0)).
Defined.

(** X15: A successful search response is consistent: for a request in
    plain text whose filter values the store accepts, [success] is true,
    [count] is the number of entries of [products], one entry per product
    the search returns, and [filters_applied] echoes the parsed
    parameters; with the key constraints of the store and prices that fit
    the column [count] is the number of matching rows. *)
Theorem search_response_is_consistent (isoformat : datetime -> string)
    (request : HttpRequest) (s : Store) (n n' : nat) (r : JsonResponse) :
  plain_request request = true ->
  storable_request request = true ->
  ProductSearchView_get isoformat request s n = (inr r, n') ->
  status r = 200 ->
  exists c lo hi js,
    parsed_category_id request = Some c
    /\ parsed_price "min_price" request = Some lo
    /\ parsed_price "max_price" request = Some hi
    /\ jget "success" (body r) = Some (JBool true)
    /\ jget "error" (body r) = None
    /\ jget "products" (body r) = Some (JList js)
    /\ jget "count" (body r) = Some (JInt (Z.of_nat (length js)))
    /\ length js = length (search_results s c lo hi)
    /\ jget "filters_applied" (body r)
       = Some (filters_json {| category_id := c; min_price := lo;
                               max_price := hi |})
    /\ (store_ok s = true ->
        prices_fit s = true ->
        length js = length (List.filter (search_hit c lo hi) (products s))).
Proof.
  intros _ _. rewrite ProductSearchView_get_run. intros [= <- <-].
  unfold search_outcome.
  destruct (parsed_category_id request) as [c|]; [|done].
  destruct (parsed_price "min_price" request) as [lo|]; [|done].
  destruct (parsed_price "max_price" request) as [hi|]; [|done].
  destruct (inverted lo hi); [done|]. intros _.
  exists c, lo, hi. eexists.
  destruct (for_each_cached isoformat (search_results s c lo hi) s n
              (search_results_cached s c lo hi)) as [_ Hlen].
  repeat split; try done.
  intros Hok _. rewrite Hlen.
  by apply search_rows_once.
Qed.

Lemma search_response_is_consistent_witness :
  exists r,
    plain_request (Scenario.request [("category_id", "1")]) = true
    /\ storable_request (Scenario.request [("category_id", "1")]) = true
    /\ ProductSearchView_get Scenario.isoformat
         (Scenario.request [("category_id", "1")]) Scenario.store 0%nat
       = (inr r, 1%nat)
    /\ status r = 200
    /\ jget "count" (body r) = Some (JInt 2).
Proof.
  eexists. split; [reflexivity|]. split; [reflexivity|].
  split; [reflexivity|]. split; [reflexivity|].
  destruct (search_response_is_consistent Scenario.isoformat
              (Scenario.request [("category_id", "1")]) Scenario.store
              0%nat 1%nat _ eq_refl eq_refl eq_refl eq_refl)
    as (c & lo & hi & js & _ & _ & _ & _ & _ & Hjs & Hcount & _).
  injection Hjs as <-. exact Hcount.
Defined.

(** X16: The search view always answers a request in plain text whose
    filter values the store accepts: no exception leaves it, the status is
    200 or 400, and a 400 carries [success: false] and an error message
    and was decided without querying the store. *)
Theorem search_view_always_answers (isoformat : datetime -> string)
    (request : HttpRequest) (s : Store) (n : nat) :
  plain_request request = true ->
  storable_request request = true ->
  exists r n',
    ProductSearchView_get isoformat request s n = (inr r, n')
    /\ (status r = 200 \/ status r = 400)
    /\ (status r = 400 ->
        n' = n
        /\ jget "success" (body r) = Some (JBool false)
        /\ exists m, jget "error" (body r) = Some (JStr m)).
Proof.
  intros _ _.
  rewrite ProductSearchView_get_run. eexists _, _. split; [reflexivity|].
  unfold search_outcome.
  destruct (parsed_category_id request) as [c|];
    [|split; [by right|]; intros _; repeat split; by eexists].
  destruct (parsed_price "min_price" request) as [lo|];
    [|split; [by right|]; intros _; repeat split; by eexists].
  destruct (parsed_price "max_price" request) as [hi|];
    [|split; [by right|]; intros _; repeat split; by eexists].
  destruct (inverted lo hi);
    [split; [by right|]; intros _; repeat split; by eexists|].
  split; [by left|]. done.
Qed.

Lemma search_view_always_answers_witness :
  plain_request
    (Scenario.request [("min_price", "500"); ("max_price", "1500")]) = true
  /\ storable_request
       (Scenario.request [("min_price", "500"); ("max_price", "1500")])
     = true
  /\ exists r n',
       ProductSearchView_get Scenario.isoformat
         (Scenario.request [("min_price", "500"); ("max_price", "1500")])
         Scenario.store 0%nat = (inr r, n')
       /\ (status r = 200 \/ status r = 400).
Proof.
  split; [reflexivity|]. split; [reflexivity|].
  destruct (search_view_always_answers Scenario.isoformat
              (Scenario.request [("min_price", "500"); ("max_price", "1500")])
              Scenario.store 0%nat eq_refl eq_refl)
    as (r & n' & Hrun & Hstatus & _).
  by exists r, n'.
Defined.

(** ** More on the detail view *)

Lemma find_category_sound (s : Store) (cid : Z) (c : Category.t) :
  find_category s cid = Some c -> c ∈ categories s /\ Category.id c = cid.
Proof.
  unfold find_category. intros Hc. apply find_some in Hc as [Hin Hid].
  split; [by apply list_elem_of_In|]. by apply Z.eqb_eq.
Qed.

(** X17: The detail endpoint shows what is stored: for a product of the store
    it answers 200 with the fields of that product and the id and name of
    the category its foreign key points to, in one query. *)
Theorem detail_view_shows_stored_product (isoformat : datetime -> string)
    (request : HttpRequest) (p : Product.t) (s : Store) (n : nat) :
  store_ok s = true ->
  p ∈ products s ->
  exists c,
    c ∈ categories s
    /\ Category.id c = Product.category_id p
    /\ ProductDetailView_get isoformat request (arg_int (Product.id p)) s n
       = (inr {| body := JDict
                   [("success", JBool true);
                    ("product",
                     JDict
                       [("id", JInt (Product.id p));
                        ("sku", JStr (Product.sku p));
                        ("name", JStr (Product.name p));
                        ("price", JStr (Decimal_str (Product.price p)));
                        ("is_active", JBool (Product.is_active p));
                        ("category",
                         JDict [("id", JInt (Category.id c));
                                ("name", JStr (Category.name c))]);
                        ("description", JStr (Product.description p));
                        ("created_at",
                         JStr (isoformat (Product.created_at p)))])];
                 status := 200 |}, S n).
Proof.
  intros Hok Hp.
  destruct (ProductDetailView_get_found isoformat request p s n Hok Hp)
    as (c & Hc & Hrun).
  exists c. destruct (find_category_sound s _ c Hc) as [Hin Hid]. done.
Qed.

Lemma detail_view_shows_stored_product_witness :
  store_ok Scenario.store = true
  /\ Scenario.shirt ∈ products Scenario.store
  /\ exists r,
       ProductDetailView_get Scenario.isoformat (Scenario.request [])
         (arg_int 3) Scenario.store 0%nat = (inr r, 1%nat)
       /\ status r = 200.
Proof.
  assert (Hin : Scenario.shirt ∈ products Scenario.store)
    by (apply (bool_decide_unpack _); vm_compute; reflexivity).
  split; [reflexivity|]. split; [exact Hin|].
  destruct (detail_view_shows_stored_product Scenario.isoformat
              (Scenario.request []) Scenario.shirt Scenario.store 0%nat
              eq_refl Hin) as (c & _ & _ & Hrun).
  eexists. split; [exact Hrun|]. reflexivity.
Defined.

Lemma detail_text_id (isoformat : datetime -> string)
    (request : HttpRequest) (t : string) (s : Store) (n : nat) :
  (isdigit t = false ->
   ProductDetailView_get isoformat request (arg_str t) s n
   = (inr (failure "Product ID must be a valid number" 400), n))
  /\ (isdigit t = true ->
      exists z,
        int t = Some z /\ 0 <= z
        /\ ProductDetailView_get isoformat request (arg_str t) s n
           = ProductDetailView_get isoformat request (arg_int z) s n).
Proof.
  split.
  - intros Ht. unfold ProductDetailView_get, try_except. by rewrite Ht.
  - intros Ht. destruct (isdigit_int t Ht) as (z & Hz & Hpos).
    exists z. split; [done|]. split; [done|].
    apply ProductDetailView_get_path. simpl. by rewrite Ht.
Qed.

(** X18: A [product_id] given as plain text that is not all digits is
    refused with 400 before any query; plain text made of digits is read
    as the integer it spells, which is never negative and fits 64 bits,
    and answered like that integer. *)
Theorem detail_view_text_id (isoformat : datetime -> string)
    (request : HttpRequest) (t : string) (s : Store) (n : nat) :
  plain_text t = true ->
  (isdigit t = false ->
   ProductDetailView_get isoformat request (arg_str t) s n
   = (inr (failure "Product ID must be a valid number" 400), n))
  /\ (isdigit t = true ->
      exists z,
        int t = Some z /\ 0 <= z /\ int64 z = true
        /\ ProductDetailView_get isoformat request (arg_str t) s n
           = ProductDetailView_get isoformat request (arg_int z) s n).
Proof.
  intros Hplain. split; [apply detail_text_id|]. intros Ht.
  destruct (proj2 (detail_text_id isoformat request t s n) Ht)
    as (z & Hz & Hpos & Hrun).
  exists z. repeat split; try done. by apply (int_plain_fits t).
Qed.

Lemma detail_view_text_id_witness :
  plain_text "12a" = true
  /\ ProductDetailView_get Scenario.isoformat (Scenario.request [])
       (arg_str "12a") Scenario.store 0%nat
     = (inr (failure "Product ID must be a valid number" 400), 0%nat).
Proof.
  split; [reflexivity|].
  by apply (detail_view_text_id Scenario.isoformat (Scenario.request [])
              "12a" Scenario.store 0%nat eq_refl).
Defined.

Lemma filter_id_length (z : Z) (l : list Product.t) :
  NoDup (Product.id <$> l) -> (length (List.filter (has_id z) l) <= 1)%nat.
Proof.
  intros Hnd.
  destruct (List.filter (has_id z) l) as [|p rest] eqn:Hf; [simpl; lia|].
  assert (Hp : In p (List.filter (has_id z) l)) by (rewrite Hf; by left).
  apply filter_In in Hp as [Hp Hid]. apply has_id_eq in Hid. subst z.
  rewrite (filter_id_unique p l Hnd) in Hf by (by apply list_elem_of_In).
  injection Hf as <-. simpl. lia.
Qed.

Lemma omap_length {A B : Type} (f : A -> option B) (l : list A) :
  (length (omap f l) <= length l)%nat.
Proof.
  induction l as [|x l IH]; [done|].
  change (omap f (x :: l))
    with (match f x with Some y => y :: omap f l | None => omap f l end).
  destruct (f x); simpl; lia.
Qed.

Lemma detail_answers (isoformat : datetime -> string)
    (request : HttpRequest) (a : PathArg) (s : Store) (n : nat) :
  exists r n',
    ProductDetailView_get isoformat request a s n = (inr r, n')
    /\ (status r = 200 \/ status r = 400 \/ status r = 404
        \/ status r = 500)
    /\ (status r = 400 <-> exists t, a = arg_str t /\ isdigit t = false)
    /\ n' = (if status r =? 400 then n else S n)
    /\ (store_ok s = true -> status r <> 500).
Proof.
  assert (Hint : forall z,
    exists r,
      ProductDetailView_get isoformat request (arg_int z) s n = (inr r, S n)
      /\ (status r = 200 \/ status r = 404 \/ status r = 500)
      /\ (store_ok s = true -> status r <> 500)).
  { intros z. unfold ProductDetailView_get.
    unfold try_except, mbind, DB_bind. rewrite get_product_detail_rows.
    pose proof (omap_length (loaded s) (List.filter (has_id z) (products s)))
      as Hlen.
    destruct (omap (loaded s) (List.filter (has_id z) (products s)))
      as [|o [|o' rows]] eqn:Hrows.
    - eexists. split; [reflexivity|]. split; [by right; left|]. done.
    - assert (Ho : o ∈ omap (loaded s)
                          (List.filter (has_id z) (products s)))
        by (rewrite Hrows; left).
      apply list_elem_of_omap in Ho as (p & _ & Hp). unfold loaded in Hp.
      destruct (find_category s (Product.category_id p)) as [c|]; [|done].
      injection Hp as <-.
      rewrite (detail_product_data_cached isoformat
                 {| row := p; category_cache := Some c |} c s (S n) eq_refl).
      eexists. split; [reflexivity|]. split; [by left|]. done.
    - eexists. split; [reflexivity|]. split; [by right; right|].
      intros Hok. apply store_ok_ids in Hok.
      pose proof (filter_id_length z _ Hok). simpl in Hlen. lia. }
  destruct a as [z|t].
  - destruct (Hint z) as (r & Hrun & Hstatus & H500).
    exists r, (S n). split; [done|]. split; [tauto|]. split.
    + split; [intros H400; destruct Hstatus as [H|[H|H]]; congruence|].
      by intros (t & ? & _).
    + split; [|done].
      destruct Hstatus as [H|[H|H]]; by rewrite H.
  - destruct (isdigit t) eqn:Ht.
    + destruct (proj2 (detail_text_id isoformat request t s n) Ht)
        as (z & _ & _ & ->).
      destruct (Hint z) as (r & Hrun & Hstatus & H500).
      exists r, (S n). split; [done|]. split; [tauto|]. split.
      * split; [intros H400; destruct Hstatus as [H|[H|H]]; congruence|].
        intros (t' & [= <-] & Ht'). congruence.
      * split; [|done]. destruct Hstatus as [H|[H|H]]; by rewrite H.
    + rewrite (proj1 (detail_text_id isoformat request t s n) Ht).
      eexists _, _. split; [reflexivity|]. split; [by right; left|].
      split; [split; [by exists t|done]|]. split; done.
Qed.

(** X19: The detail view always answers an id that is an integer of 64
    bits or plain text: no exception leaves it and the status is 200,
    400, 404 or 500.  It is 400 only for a textual id that is not all
    digits, and it sends no query then and one otherwise; it is 500 only
    when several rows carry the id, which the key constraints of the
    store exclude. *)
Theorem detail_view_always_answers (isoformat : datetime -> string)
    (request : HttpRequest) (a : PathArg) (s : Store) (n : nat) :
  plain_arg a = true ->
  exists r n',
    ProductDetailView_get isoformat request a s n = (inr r, n')
    /\ (status r = 200 \/ status r = 400 \/ status r = 404
        \/ status r = 500)
    /\ (status r = 400 <-> exists t, a = arg_str t /\ isdigit t = false)
    /\ n' = (if status r =? 400 then n else S n)
    /\ (store_ok s = true -> status r <> 500).
Proof. intros _. exact (detail_answers isoformat request a s n). Qed.

Lemma detail_view_always_answers_witness :
  plain_arg (arg_int 999) = true
  /\ exists r n',
       ProductDetailView_get Scenario.isoformat (Scenario.request [])
         (arg_int 999) Scenario.store 0%nat = (inr r, n')
       /\ n' = (if status r =? 400 then 0%nat else 1%nat).
Proof.
  split; [reflexivity|].
  destruct (detail_view_always_answers Scenario.isoformat
              (Scenario.request []) (arg_int 999) Scenario.store 0%nat
              eq_refl) as (r & n' & Hrun & _ & _ & Hn & _).
  by exists r, n'.
Defined.

(** ** Routing and views together *)

(** X20: Through the URL configuration the detail view only ever receives a
    non-negative integer, so its own check of the id never fails: a
    request that is routed is answered by the search view, or by the
    detail view with a status other than 400. *)
Theorem routed_requests (isoformat : datetime -> string) (path : string)
    (request : HttpRequest) (view : DB JsonResponse) :
  dispatch isoformat path request = Some view ->
  (path = "/api/products/search/"
   /\ view = ProductSearchView_get isoformat request)
  \/ (exists z,
        0 <= z
        /\ view = ProductDetailView_get isoformat request (arg_int z)
        /\ forall s n,
             exists r,
               view s n = (inr r, S n) /\ status r <> 400).
Proof.
  unfold dispatch.
  destruct (resolve path) as [[v kwargs]|] eqn:Hres; [|done].
  apply resolve_inv in Hres
    as [(-> & -> & ->)|(-> & ds & z & _ & _ & _ & _ & Hz & ->)].
  - intros [= <-]. by left.
  - simpl. intros [= <-]. right. exists z. split; [done|]. split; [done|].
    intros s n.
    destruct (detail_answers isoformat request (arg_int z) s n)
      as (r & n' & Hrun & _ & H400 & Hn & _).
    assert (Hnot : status r <> 400).
    { intros H. apply H400 in H as (t & Habs & _). done. }
    exists r. split; [|done]. rewrite Hrun, Hn.
    destruct (Z.eqb_spec (status r) 400); done.
Qed.

Lemma routed_requests_witness :
  exists view,
    dispatch Scenario.isoformat "/api/products/4/" (Scenario.request [])
    = Some view
    /\ exists r, view Scenario.store 0%nat = (inr r, 1%nat)
                 /\ status r <> 400.
Proof.
  eexists. split; [reflexivity|].
  destruct (routed_requests Scenario.isoformat "/api/products/4/"
              (Scenario.request []) _ eq_refl)
    as [[Habs _]|(z & _ & Hview & Hrun)]; [discriminate Habs|].
  apply Hrun.
Defined.

(** ** Inactive categories *)

Lemma find_category_deactivated (s : Store) (cid : Z) :
  find_category (with_categories_deactivated s) cid
  = deactivated <$> find_category s cid.
Proof.
  unfold find_category. simpl.
  induction (categories s) as [|c l IH]; [done|].
  rewrite fmap_cons. simpl. by destruct (Category.id c =? cid).
Qed.

Lemma sort_desc_fmap {A B : Type} (key : B -> Z) (g : A -> B)
    (l : list A) :
  sort_desc key (g <$> l) = g <$> sort_desc (fun x => key (g x)) l.
Proof.
  induction l as [|x l IH]; [done|].
  rewrite fmap_cons.
  change (sort_desc key (g x :: (g <$> l)))
    with (insert_desc key (g x) (sort_desc key (g <$> l))).
  change (sort_desc (fun x => key (g x)) (x :: l))
    with (insert_desc (fun x => key (g x)) x
            (sort_desc (fun x => key (g x)) l)).
  rewrite IH. clear IH.
  induction (sort_desc (fun x => key (g x)) l) as [|y k IHk]; [done|].
  rewrite fmap_cons. simpl.
  destruct (key (g y) <=? key (g x)); [done|].
  rewrite fmap_cons. by rewrite IHk.
Qed.

(** X21: The search never looks at [Category.is_active]: switching every
    category off changes no search result, except for the flag carried by
    the attached categories. *)
Theorem search_ignores_category_flag (s : Store) (c : option Z)
    (lo hi : option Decimal) :
  search_results (with_categories_deactivated s) c lo hi
  = with_category deactivated <$> search_results s c lo hi.
Proof.
  rewrite !search_results_eq.
  change (products (with_categories_deactivated s)) with (products s).
  rewrite <- (sort_desc_fmap created (with_category deactivated)).
  f_equal.
  induction (List.filter (search_hit c lo hi) (products s)) as [|p l IH];
    [done|].
  rewrite !omap_loaded_cons.
  assert (Hp : loaded (with_categories_deactivated s) p
               = with_category deactivated <$> loaded s p).
  { unfold loaded. rewrite find_category_deactivated.
    by destruct (find_category s (Product.category_id p)). }
  rewrite Hp. destruct (loaded s p) as [o|]; simpl; [|done].
  by rewrite IH.
Qed.
